(** * log_laplace: a shallow embedding of [src/log_laplace/log_lhc.py]

    The module keeps one process-wide logger ([_logger_instance]), attaches a
    file handler and a console handler to the root logger and replaces
    [sys.stdout] and [sys.stderr] by [StreamToLogger] objects.

    Python state is threaded explicitly: every operation is a function from
    the process state to the new state and either an exception or a result.
    The parts of the Python standard library the module calls ([str.rstrip],
    [str.upper], [pathlib], [logging]) are modelled next to the code that
    uses them, to the extent that code depends on them.  Text is ASCII. *)

From Stdlib Require Import ZArith Ascii String List Lia Bool.
From stdpp Require Import gmap strings list fin_maps.

Local Open Scope Z_scope.

(* ===================================================================== *)
(** ** Text *)
(* ===================================================================== *)

Module Str.

Definition code (c : ascii) : nat := nat_of_ascii c.

(** [str.isspace] on one ASCII character: TAB, LF, VT, FF, CR, the four
    separators FS, GS, RS, US and the space. *)
Definition isspace (c : ascii) : bool :=
  let n := code c in
  ((9 <=? n)%nat && (n <=? 13)%nat) || ((28 <=? n)%nat && (n <=? 32)%nat).

Definition is_lower (c : ascii) : bool :=
  let n := code c in (97 <=? n)%nat && (n <=? 122)%nat.

Definition is_upper (c : ascii) : bool :=
  let n := code c in (65 <=? n)%nat && (n <=? 90)%nat.

Definition upper_char (c : ascii) : ascii :=
  if is_lower c then ascii_of_nat (code c - 32) else c.

Definition lower_char (c : ascii) : ascii :=
  if is_upper c then ascii_of_nat (code c + 32) else c.

Fixpoint map (f : ascii -> ascii) (s : string) : string :=
  match s with
  | EmptyString => EmptyString
  | String c r => String (f c) (map f r)
  end.

(** [s.upper()] and [s.lower()]. *)
Definition upper : string -> string := map upper_char.
Definition lower : string -> string := map lower_char.

Fixpoint all (p : ascii -> bool) (s : string) : bool :=
  match s with
  | EmptyString => true
  | String c r => p c && all p r
  end.

(** [s.rstrip()]: drop the longest suffix made of whitespace. *)
Fixpoint rstrip (s : string) : string :=
  match s with
  | EmptyString => EmptyString
  | String c r =>
      match rstrip r with
      | EmptyString => if isspace c then EmptyString else String c EmptyString
      | r' => String c r'
      end
  end.

(** Python truthiness of a [str]: [not s] holds for the empty string only. *)
Definition is_empty (s : string) : bool :=
  match s with EmptyString => true | _ => false end.

(** [needle in s]. *)
Fixpoint contains (needle s : string) : bool :=
  String.prefix needle s ||
  match s with
  | EmptyString => false
  | String _ r => contains needle r
  end.

Definition NL : string := String (ascii_of_nat 10) EmptyString.

End Str.

(* ===================================================================== *)
(** ** Exceptions *)
(* ===================================================================== *)

Inductive Exc : Type :=
| RuntimeError (msg : string)
| ValueError (msg : string)
| TypeError
| FileExistsError
| FileNotFoundError
| NotADirectoryError
| IsADirectoryError
| RecursionError.

(* ===================================================================== *)
(** ** The [logging] levels *)
(* ===================================================================== *)

Module logging.

Definition NOTSET : Z := 0.
Definition DEBUG : Z := 10.
Definition INFO : Z := 20.
Definition WARNING : Z := 30.
Definition ERROR : Z := 40.
Definition CRITICAL : Z := 50.

(** The severities the facade emits records at. *)
Inductive Severity : Type := SevDebug | SevInfo | SevWarning | SevError.

Definition levelno (s : Severity) : Z :=
  match s with
  | SevDebug => DEBUG
  | SevInfo => INFO
  | SevWarning => WARNING
  | SevError => ERROR
  end.

Definition levelname (s : Severity) : string :=
  match s with
  | SevDebug => "DEBUG"
  | SevInfo => "INFO"
  | SevWarning => "WARNING"
  | SevError => "ERROR"
  end.

(** What an attribute of the [logging] module can hold, as far as
    [setLevel] tells values apart. *)
Inductive PyVal : Type :=
| VInt (n : Z)
| VStr (s : string)
| VDict.

Definition BASIC_FORMAT : string := "%(levelname)s:%(name)s:%(message)s".

(** [logging.__dict__] restricted to the names without a lowercase letter:
    [name.upper()] can be no other name.  Besides the level constants the
    module binds the default format string and the table of format
    styles. *)
Definition module_attr (name : string) : option PyVal :=
  if String.eqb name "CRITICAL" then Some (VInt CRITICAL)
  else if String.eqb name "FATAL" then Some (VInt CRITICAL)
  else if String.eqb name "ERROR" then Some (VInt ERROR)
  else if String.eqb name "WARNING" then Some (VInt WARNING)
  else if String.eqb name "WARN" then Some (VInt WARNING)
  else if String.eqb name "INFO" then Some (VInt INFO)
  else if String.eqb name "DEBUG" then Some (VInt DEBUG)
  else if String.eqb name "NOTSET" then Some (VInt NOTSET)
  else if String.eqb name "BASIC_FORMAT" then Some (VStr BASIC_FORMAT)
  else if String.eqb name "_STYLES" then Some VDict
  else None.

(** [getattr(logging, name, default)]. *)
Definition getattr (name : string) (default : PyVal) : PyVal :=
  match module_attr name with
  | Some v => v
  | None => default
  end.

(** [logging._nameToLevel]. *)
Definition _nameToLevel (name : string) : option Z :=
  if String.eqb name "CRITICAL" then Some CRITICAL
  else if String.eqb name "FATAL" then Some CRITICAL
  else if String.eqb name "ERROR" then Some ERROR
  else if String.eqb name "WARN" then Some WARNING
  else if String.eqb name "WARNING" then Some WARNING
  else if String.eqb name "INFO" then Some INFO
  else if String.eqb name "DEBUG" then Some DEBUG
  else if String.eqb name "NOTSET" then Some NOTSET
  else None.

(** [logging._checkLevel], the check [Handler.setLevel] runs.  The message
    of the [ValueError] is given without the quotes that [%r] puts around
    the value. *)
Definition _checkLevel (v : PyVal) : Exc + Z :=
  match v with
  | VInt n => inr n
  | VStr s =>
      match _nameToLevel s with
      | Some n => inr n
      | None => inl (ValueError ("Unknown level: " +:+ s))
      end
  | VDict => inl TypeError
  end.

(** The level a handler ends up with after
    [h.setLevel(getattr(logging, level.upper(), default))]. *)
Definition level_arg (level : string) (default : Z) : Exc + Z :=
  _checkLevel (getattr (Str.upper level) (VInt default)).

End logging.

(* ===================================================================== *)
(** ** [pathlib] paths (POSIX flavour) and [datetime.date] *)
(* ===================================================================== *)

Inductive Root : Type := Rel | Abs | Abs2.

Record Path : Type := mkPath { root : Root; parts : list string }.

Module pathlib.

Definition slash : ascii := ascii_of_nat 47.

Fixpoint split_slash (s : string) : list string :=
  match s with
  | EmptyString => [EmptyString]
  | String c r =>
      if Ascii.eqb c slash then EmptyString :: split_slash r
      else match split_slash r with
           | [] => [String c EmptyString]
           | h :: t => String c h :: t
           end
  end.

(** One leading slash, or three and more, is the root; exactly two
    leading slashes are kept as a root of their own. *)
Definition root_of (s : string) : Root :=
  match s with
  | String c1 r1 =>
      if Ascii.eqb c1 slash then
        match r1 with
        | String c2 r2 =>
            if Ascii.eqb c2 slash then
              match r2 with
              | String c3 _ => if Ascii.eqb c3 slash then Abs else Abs2
              | EmptyString => Abs2
              end
            else Abs
        | EmptyString => Abs
        end
      else Rel
  | EmptyString => Rel
  end.

Definition keep_part (p : string) : bool :=
  negb (String.eqb p "") && negb (String.eqb p ".").

(** [Path(s)] for a string: empty components and [.] are dropped,
    [..] is kept. *)
Definition of_str (s : string) : Path :=
  mkPath (root_of s) (List.filter keep_part (split_slash s)).

(** [p / q]: an anchored right operand replaces the left one. *)
Definition join (p q : Path) : Path :=
  match root q with
  | Rel => mkPath (root p) (parts p ++ parts q)
  | _ => q
  end.

Definition root_str (r : Root) : string :=
  match r with Rel => "" | Abs => "/" | Abs2 => "//" end.

Fixpoint sep_concat (l : list string) : string :=
  match l with
  | [] => ""
  | [x] => x
  | x :: rest => x +:+ "/" +:+ sep_concat rest
  end.

(** [str(p)]. *)
Definition to_str (p : Path) : string :=
  match root p, parts p with
  | Rel, [] => "."
  | r, l => root_str r +:+ sep_concat l
  end.

(** [p.parent]. *)
Definition parent (p : Path) : Path :=
  mkPath (root p) (removelast (parts p)).

(** The non-empty prefixes of a list, shortest first. *)
Fixpoint prefixes {A} (l : list A) : list (list A) :=
  match l with
  | [] => []
  | x :: r => [x] :: List.map (cons x) (prefixes r)
  end.

(** [p] preceded by its ancestors below the root, outermost first. *)
Definition chain (p : Path) : list Path :=
  List.map (mkPath (root p)) (prefixes (parts p)).

End pathlib.

Record Date : Type := mkDate { year : nat; month : nat; day : nat }.

Module datetime.

Definition digit (n : nat) : ascii := ascii_of_nat (48 + n mod 10).

Definition pad2 (n : nat) : string :=
  String (digit (n / 10)) (String (digit n) EmptyString).

Definition pad4 (n : nat) : string :=
  String (digit (n / 1000)) (String (digit (n / 100)) (pad2 n)).

(** [d.isoformat()], that is [YYYY-MM-DD]. *)
Definition isoformat (d : Date) : string :=
  pad4 (year d) +:+ "-" +:+ pad2 (month d) +:+ "-" +:+ pad2 (day d).

End datetime.

(* ===================================================================== *)
(** ** The process: module globals, [sys], the root logger, the outside *)
(* ===================================================================== *)

(** [logging.getLogger()] is [RootLogger]; every other logger is known by
    its name.  The module never sets a level or a handler on a named
    logger and leaves [propagate] on, so a named logger has no state of its
    own: its records are judged by the root logger's level and travel to
    the root logger's handlers. *)
Inductive LoggerRef : Type :=
| RootLogger
| NamedLogger (name : string).

(** A text stream is either a plain stream of the interpreter (known by its
    descriptor, 1 for the terminal's standard output and 2 for its standard
    error) or an instance of the class [StreamToLogger] with its two
    attributes. *)
Inductive Stream : Type :=
| TextIO (fd : nat)
| StreamToLogger (logger : LoggerRef) (stream : Stream).

(** The two handler classes in use.  Every handler the module builds
    carries the same formatter [fmt]. *)
Inductive Handler : Type :=
| FileHandler (baseFilename : string) (level : Z)
| StreamHandler (stream : Stream) (level : Z).

Definition handler_level (h : Handler) : Z :=
  match h with
  | FileHandler _ l => l
  | StreamHandler _ l => l
  end.

Inductive Node : Type :=
| Dir
| File (chunks : list string).

(** The attributes [__init__] sets on a fully built [LoggerLHC]. *)
Record LoggerLHC : Type := mkLoggerLHC {
  app_name : string;
  log_root : Path;
  date_folder : Path;
  log_file : Path;
  root_logger : LoggerRef;
  logger : LoggerRef
}.

Record Process : Type := mkProcess {
  _logger_instance : option LoggerLHC;        (* the module global *)
  sys_stdout : Stream;                        (* sys.stdout *)
  sys_stderr : Stream;                        (* sys.stderr *)
  root_level : Z;                             (* logging.getLogger().level *)
  root_handlers : list Handler;               (* logging.getLogger().handlers *)
  tty : gmap nat (list string);               (* what each plain stream received *)
  fs : gmap string Node;                      (* the file system, by path *)
  cwd : Path;                                 (* Path.cwd() *)
  today : Date;                               (* date.today() *)
  asctime : string                            (* the clock, as %(asctime)s prints it *)
}.

(** [sys.__stdout__] and [sys.__stderr__]: set when the interpreter starts,
    never assigned by the module. *)
Definition sys___stdout__ : Stream := TextIO 1.
Definition sys___stderr__ : Stream := TextIO 2.

Definition set_instance (v : option LoggerLHC) (s : Process) : Process :=
  mkProcess v (sys_stdout s) (sys_stderr s) (root_level s) (root_handlers s)
            (tty s) (fs s) (cwd s) (today s) (asctime s).

Definition set_stdout (v : Stream) (s : Process) : Process :=
  mkProcess (_logger_instance s) v (sys_stderr s) (root_level s) (root_handlers s)
            (tty s) (fs s) (cwd s) (today s) (asctime s).

Definition set_stderr (v : Stream) (s : Process) : Process :=
  mkProcess (_logger_instance s) (sys_stdout s) v (root_level s) (root_handlers s)
            (tty s) (fs s) (cwd s) (today s) (asctime s).

Definition set_root_level (v : Z) (s : Process) : Process :=
  mkProcess (_logger_instance s) (sys_stdout s) (sys_stderr s) v (root_handlers s)
            (tty s) (fs s) (cwd s) (today s) (asctime s).

Definition set_root_handlers (v : list Handler) (s : Process) : Process :=
  mkProcess (_logger_instance s) (sys_stdout s) (sys_stderr s) (root_level s) v
            (tty s) (fs s) (cwd s) (today s) (asctime s).

Definition set_tty (v : gmap nat (list string)) (s : Process) : Process :=
  mkProcess (_logger_instance s) (sys_stdout s) (sys_stderr s) (root_level s)
            (root_handlers s) v (fs s) (cwd s) (today s) (asctime s).

Definition set_fs (v : gmap string Node) (s : Process) : Process :=
  mkProcess (_logger_instance s) (sys_stdout s) (sys_stderr s) (root_level s)
            (root_handlers s) (tty s) v (cwd s) (today s) (asctime s).

(** A computation reads and changes the process and either raises or
    returns. *)
Definition M (A : Type) : Type := Process -> Process * (Exc + A).

Definition ret {A} (a : A) : M A := fun s => (s, inr a).

Definition raise {A} (e : Exc) : M A := fun s => (s, inl e).

Definition bind {A B} (m : M A) (k : A -> M B) : M B :=
  fun s =>
    match m s with
    | (s', inr a) => k a s'
    | (s', inl e) => (s', inl e)
    end.

Definition get : M Process := fun s => (s, inr s).

Definition modify (f : Process -> Process) : M unit := fun s => (f s, inr tt).

(** Lift a pure check that may raise. *)
Definition lift {A} (r : Exc + A) : M A :=
  match r with
  | inl e => raise e
  | inr a => ret a
  end.

Notation "'let*' x ':=' m 'in' k" := (bind m (fun x => k))
  (at level 10, x name, m at level 100, k at level 200).
Notation "m '>>' k" := (bind m (fun _ => k))
  (at level 90, right associativity).

(* ===================================================================== *)
(** ** The file system *)
(* ===================================================================== *)

Module os.

(** The path the operating system resolves [p] to: relative paths start
    at the working directory.  A [..] component is kept as it is spelled,
    so the file system is keyed by the unfolded spelling of a path. *)
Definition resolve (wd p : Path) : Path := pathlib.join wd p.

Definition key (wd p : Path) : string := pathlib.to_str (resolve wd p).

(** What is at the resolved path [p]; the root directory always exists. *)
Definition node (f : gmap string Node) (p : Path) : option Node :=
  match parts p with
  | [] => Some Dir
  | _ => f !! pathlib.to_str p
  end.

(** Walk down the chain of a path, creating the directories that are
    missing: [Path.mkdir(parents=True, exist_ok=True)].  A regular file in
    the way raises. *)
Fixpoint mkdir_chain (c : list Path) (f : gmap string Node)
  : Exc + gmap string Node :=
  match c with
  | [] => inr f
  | p :: rest =>
      match f !! pathlib.to_str p with
      | Some (File _) =>
          inl (match rest with [] => FileExistsError | _ => NotADirectoryError end)
      | Some Dir => mkdir_chain rest f
      | None => mkdir_chain rest (<[pathlib.to_str p := Dir]> f)
      end
  end.

Definition mkdir (p : Path) : M unit :=
  let* s := get in
  let* f := lift (mkdir_chain (pathlib.chain (resolve (cwd s) p)) (fs s)) in
  modify (set_fs f).

(** [open(p, 'a')]: the file is created when missing, its directory has
    to exist; what the file holds already is kept. *)
Definition open_append (p : Path) (f : gmap string Node)
  : Exc + gmap string Node :=
  match node f p with
  | Some Dir => inl IsADirectoryError
  | Some (File _) => inr f
  | None =>
      match node f (pathlib.parent p) with
      | Some Dir => inr (<[pathlib.to_str p := File []]> f)
      | Some (File _) => inl NotADirectoryError
      | None => inl FileNotFoundError
      end
  end.

Definition append_chunk (chunk : string) (n : Node) : Node :=
  match n with
  | File c => File (c ++ [chunk])
  | Dir => Dir
  end.

(** Write to a file that is held open for append. *)
Definition write (name chunk : string) : M unit :=
  modify (fun s => set_fs (alter (append_chunk chunk) name (fs s)) s).

End os.

(* ===================================================================== *)
(** ** Streams, handlers and loggers *)
(* ===================================================================== *)

(** The formatter of [_setup_handlers]:
    ["%(asctime)s [%(levelname)s] [%(name)s] %(message)s"]. *)
Definition fmt (time levelname name message : string) : string :=
  time +:+ " [" +:+ levelname +:+ "] [" +:+ name +:+ "] " +:+ message.

Definition logger_name (l : LoggerRef) : string :=
  match l with
  | RootLogger => "root"
  | NamedLogger n => n
  end.

(** [logging.getLogger(name)]: the empty name and the root logger's own
    name give the root logger. *)
Definition getLogger (name : string) : LoggerRef :=
  if String.eqb name "" || String.eqb name "root" then RootLogger
  else NamedLogger name.

Definition TextIO_write (fd : nat) (chunk : string) : M unit :=
  modify (fun s => set_tty (<[fd := (tty s !!! fd) ++ [chunk]]> (tty s)) s).

(** Flushing changes nothing that the model observes; the shim passes the
    call on to its stream. *)
Fixpoint Stream_flush (st : Stream) : M unit :=
  match st with
  | TextIO _ => ret tt
  | StreamToLogger _ inner => Stream_flush inner
  end.

Section Logger.

(** How a handler writes to its stream. *)
Variable stream_write : Stream -> string -> M unit.

(** [Handler.emit]: the formatted record and the terminator. *)
Definition Handler_emit (h : Handler) (line : string) : M unit :=
  match h with
  | FileHandler name _ => os.write name (line +:+ Str.NL)
  | StreamHandler st _ => stream_write st (line +:+ Str.NL) >> Stream_flush st
  end.

(** [Logger.callHandlers] on the handlers of the root logger: a handler
    gets the record when the record's level reaches the handler's. *)
Fixpoint callHandlers (hs : list Handler) (levelno : Z) (line : string) : M unit :=
  match hs with
  | [] => ret tt
  | h :: rest =>
      (if handler_level h <=? levelno then Handler_emit h line else ret tt) >>
      callHandlers rest levelno line
  end.

(** [logger.debug/info/warning/error(msg)].  With no handler at all the
    handler of last resort prints warnings and errors, bare, on
    [sys.stderr]. *)
Definition Logger_log (l : LoggerRef) (sev : logging.Severity) (msg : string) : M unit :=
  let* s := get in
  if root_level s <=? logging.levelno sev then
    match root_handlers s with
    | [] =>
        if logging.WARNING <=? logging.levelno sev
        then stream_write (sys_stderr s) (msg +:+ Str.NL)
        else ret tt
    | hs =>
        callHandlers hs (logging.levelno sev)
          (fmt (asctime s) (logging.levelname sev) (logger_name l) msg)
    end
  else ret tt.

End Logger.

(** [st.write(text)].  For a [StreamToLogger] this is the method [write] of
    the class in [_capture_prints]; [depth] is the number of nested calls
    of that method the interpreter still allows, and a call beyond it
    raises [RecursionError]. *)
Fixpoint Stream_write (depth : nat) (st : Stream) (text : string) : M unit :=
  match st with
  | TextIO fd => TextIO_write fd text
  | StreamToLogger l inner =>
      match depth with
      | O => raise RecursionError
      | S d =>
          let message := Str.rstrip text in
          if Str.is_empty message then ret tt
          else
            Stream_write d inner (message +:+ Str.NL) >>
            Stream_flush inner >>
            Logger_log (Stream_write d) l logging.SevInfo message
      end
  end.

(** [print(text)]: the text, then the line end, both to [sys.stdout]. *)
Definition print (depth : nat) (text : string) : M unit :=
  let* s := get in
  Stream_write depth (sys_stdout s) text >>
  let* s' := get in
  Stream_write depth (sys_stdout s') Str.NL.

(* ===================================================================== *)
(** ** The module [log_lhc] *)
(* ===================================================================== *)

(** The argument [log_root : Path | str | None]. *)
Inductive PathArg : Type :=
| ArgStr (s : string)
| ArgPath (p : Path).

Module log_lhc.

Definition not_initialized : string :=
  "Logger not initialized! Call LoggerLHC(app_name, ...) first.".

(** [StreamToLogger.__init__]: [stream or sys.__stdout__]. *)
Definition StreamToLogger__init__ (l : LoggerRef) (stream : option Stream) : Stream :=
  StreamToLogger l (match stream with Some st => st | None => sys___stdout__ end).

(** [Path(log_root or Path.cwd())]: [None] and the empty string are
    falsy. *)
Definition root_or_cwd (arg : option PathArg) (wd : Path) : Path :=
  match arg with
  | None => wd
  | Some (ArgStr s) => if Str.is_empty s then wd else pathlib.of_str s
  | Some (ArgPath p) => p
  end.

Definition addHandler (h : Handler) : M unit :=
  modify (fun s => set_root_handlers (root_handlers s ++ [h]) s).

Definition _setup_handlers (self_log_file : Path) (file_level console_level : string)
  : M unit :=
  (* File handler: opened at once, by absolute name *)
  let* s := get in
  let* f := lift (os.open_append (os.resolve (cwd s) self_log_file) (fs s)) in
  modify (set_fs f) >>
  let* fl := lift (logging.level_arg file_level logging.DEBUG) in
  addHandler (FileHandler (os.key (cwd s) self_log_file) fl) >>
  (* Console handler *)
  let* s' := get in
  let ch_stream := sys_stdout s' in
  let* cl := lift (logging.level_arg console_level logging.INFO) in
  addHandler (StreamHandler ch_stream cl).

Definition _capture_prints (self_root_logger : LoggerRef) : M unit :=
  modify (set_stdout (StreamToLogger__init__ self_root_logger None)) >>
  modify (set_stderr (StreamToLogger__init__ self_root_logger None)).

(** [LoggerLHC(app_name, log_root, file_level, console_level)].  The call
    returns the new object: [Some] of its attributes when [__init__] ran
    to its end, [None] for the object without attributes that the guard
    leaves behind. *)
Definition LoggerLHC__init__ (name : string) (root_arg : option PathArg)
    (file_level console_level : string) : M (option LoggerLHC) :=
  let* s := get in
  match _logger_instance s with
  | Some _ => ret None
  | None =>
      let self_log_root :=
        pathlib.join (root_or_cwd root_arg (cwd s)) (pathlib.of_str "logs") in
      let self_date_folder :=
        pathlib.join self_log_root (pathlib.of_str (datetime.isoformat (today s))) in
      os.mkdir self_date_folder >>
      let self_log_file :=
        pathlib.join self_date_folder (pathlib.of_str (name +:+ ".log")) in
      let self_root_logger := RootLogger in
      modify (set_root_level logging.DEBUG) >>
      let self_logger := getLogger name in
      _setup_handlers self_log_file file_level console_level >>
      _capture_prints self_root_logger >>
      let self := mkLoggerLHC name self_log_root self_date_folder self_log_file
                              self_root_logger self_logger in
      modify (set_instance (Some self)) >>
      ret (Some self)
  end.

(** The shortcut methods of [LoggerLHC]. *)
Definition LoggerLHC_log (depth : nat) (self : LoggerLHC)
    (sev : logging.Severity) (msg : string) : M unit :=
  Logger_log (Stream_write depth) (logger self) sev msg.

Definition LoggerLHC_info depth self msg := LoggerLHC_log depth self logging.SevInfo msg.
Definition LoggerLHC_debug depth self msg := LoggerLHC_log depth self logging.SevDebug msg.
Definition LoggerLHC_warning depth self msg := LoggerLHC_log depth self logging.SevWarning msg.
Definition LoggerLHC_error depth self msg := LoggerLHC_log depth self logging.SevError msg.

Definition _log_func (depth : nat) (msg level : string) : M unit :=
  let* s := get in
  match _logger_instance s with
  | None => raise (RuntimeError not_initialized)
  | Some inst =>
      let level := Str.lower level in
      if String.eqb level "debug" then LoggerLHC_debug depth inst msg
      else if String.eqb level "warning" then LoggerLHC_warning depth inst msg
      else if String.eqb level "error" then LoggerLHC_error depth inst msg
      else LoggerLHC_info depth inst msg
  end.

(** The methods of [_LogHelper], that is [log.info] and the like. *)
Definition log_info depth msg := _log_func depth msg "info".
Definition log_debug depth msg := _log_func depth msg "debug".
Definition log_warning depth msg := _log_func depth msg "warning".
Definition log_error depth msg := _log_func depth msg "error".

End log_lhc.

(** A process right after the interpreter started, on an empty file system at time [t]. *)
Definition boot (wd : Path) (d : Date) (t : string) : Process :=
  mkProcess None sys___stdout__ sys___stderr__ logging.WARNING [] ∅ ∅ wd d t.

(** The constructor's arguments, with the defaults of the signature. *)
Record Args : Type := mkArgs {
  arg_app_name : string;
  arg_log_root : option PathArg;
  arg_file_level : string;
  arg_console_level : string
}.

Definition default_args (name : string) : Args := mkArgs name None "debug" "info".

Definition construct (a : Args) : M (option LoggerLHC) :=
  log_lhc.LoggerLHC__init__ (arg_app_name a) (arg_log_root a)
                            (arg_file_level a) (arg_console_level a).

(** A run of constructor calls, one after the other; an exception ends the
    run. *)
Fixpoint construct_all (calls : list Args) : M (list (option LoggerLHC)) :=
  match calls with
  | [] => ret []
  | a :: rest =>
      let* o := construct a in
      let* os := construct_all rest in
      ret (o :: os)
  end.

(** What the attributes of a built instance are, read off [__init__]. *)
Definition instance_of (a : Args) (s : Process) : LoggerLHC :=
  let lr := pathlib.join (log_lhc.root_or_cwd (arg_log_root a) (cwd s))
                         (pathlib.of_str "logs") in
  let df := pathlib.join lr (pathlib.of_str (datetime.isoformat (today s))) in
  let lf := pathlib.join df (pathlib.of_str (arg_app_name a +:+ ".log")) in
  mkLoggerLHC (arg_app_name a) lr df lf RootLogger (getLogger (arg_app_name a)).

(** A concrete process for the examples. *)
Definition demo : Process :=
  boot (mkPath Abs ["home"; "u"]) (mkDate 2026 11 3) "2026-11-03 10:00:00".

Definition demo_args : Args := mkArgs "svc" (Some (ArgStr "/tmp/x")) "debug" "info".

Definition demo_active : Process := fst (construct demo_args demo).

(* ===================================================================== *)
(** ** The active process and its sinks *)
(* ===================================================================== *)

(** The process once the constructor has run in a process without
    handlers: the instance is published, both [sys] slots hold a shim on
    [sys.__stdout__], the root logger has the file and the console
    handler. *)
Definition active (i : LoggerLHC) (k : string) (fl cl : Z) (out : Stream)
    (t : gmap nat (list string)) (f : gmap string Node)
    (wd : Path) (d : Date) (tm : string) : Process :=
  mkProcess (Some i)
    (StreamToLogger RootLogger sys___stdout__)
    (StreamToLogger RootLogger sys___stdout__)
    logging.DEBUG
    [FileHandler k fl; StreamHandler out cl]
    t f wd d tm.

Definition emit_fs (pass : bool) (k chunk : string) (f : gmap string Node)
  : gmap string Node :=
  if pass then alter (os.append_chunk chunk) k f else f.

Definition emit_tty (pass : bool) (fd : nat) (chunk : string)
    (t : gmap nat (list string)) : gmap nat (list string) :=
  if pass then <[fd := (t !!! fd) ++ [chunk]]> t else t.

(** The four shortcut methods of [log] and the four leveled methods of the
    instance, by severity. *)
Definition shortcut (sev : logging.Severity) : nat -> string -> M unit :=
  match sev with
  | logging.SevDebug => log_lhc.log_debug
  | logging.SevInfo => log_lhc.log_info
  | logging.SevWarning => log_lhc.log_warning
  | logging.SevError => log_lhc.log_error
  end.

Definition method (sev : logging.Severity) : nat -> LoggerLHC -> string -> M unit :=
  match sev with
  | logging.SevDebug => log_lhc.LoggerLHC_debug
  | logging.SevInfo => log_lhc.LoggerLHC_info
  | logging.SevWarning => log_lhc.LoggerLHC_warning
  | logging.SevError => log_lhc.LoggerLHC_error
  end.

(* ===================================================================== *)
(** ** Path vocabulary *)
(* ===================================================================== *)

Definition not_slash (c : ascii) : bool := negb (Ascii.eqb c pathlib.slash).

Definition no_slash (s : string) : bool := Str.all not_slash s.

(** The file the specification names: [<r>/<YYYY-MM-DD>/<a>.log]. *)
Definition spec_log_file (r : string) (d : Date) (a : string) : string :=
  r +:+ "/" +:+ datetime.isoformat d +:+ "/" +:+ a +:+ ".log".

(* ===================================================================== *)
(** ** Runs of client calls *)
(* ===================================================================== *)

Definition set_clock (d : Date) (t : string) (s : Process) : Process :=
  mkProcess (_logger_instance s) (sys_stdout s) (sys_stderr s) (root_level s)
            (root_handlers s) (tty s) (fs s) (cwd s) d t.

(** What client code does with the module: construct, log through a
    shortcut, write to either intercepted stream; and time passes. *)
Inductive Call : Type :=
| CallConstruct (a : Args)
| CallShortcut (sev : logging.Severity) (msg : string)
| CallWriteOut (text : string)
| CallWriteErr (text : string)
| CallTick (d : Date) (t : string).

Definition call (depth : nat) (c : Call) : M unit :=
  match c with
  | CallConstruct a => construct a >> ret tt
  | CallShortcut sev msg => shortcut sev depth msg
  | CallWriteOut text => let* s := get in Stream_write depth (sys_stdout s) text
  | CallWriteErr text => let* s := get in Stream_write depth (sys_stderr s) text
  | CallTick d t => modify (set_clock d t)
  end.

(** The process after a run of calls; a call that raises leaves the state
    it reached and the run goes on, as when the client catches the
    exception. *)
Fixpoint run (depth : nat) (calls : list Call) (s : Process) : Process :=
  match calls with
  | [] => s
  | c :: rest => run depth rest (fst (call depth c s))
  end.

Definition demo_calls : list Call :=
  [CallWriteOut "early";
   CallConstruct (mkArgs "svc" None "debug" "basic_format");
   CallConstruct demo_args;
   CallConstruct (mkArgs "other" None "error" "error");
   CallWriteOut "hello";
   CallShortcut logging.SevError "boom";
   CallWriteErr "oops"].

(** The parts of the process that decide where records go. *)
Definition same_wiring (s s' : Process) : Prop :=
  _logger_instance s' = _logger_instance s /\
  sys_stdout s' = sys_stdout s /\
  sys_stderr s' = sys_stderr s /\
  root_handlers s' = root_handlers s.

Definition framed {A} (m : M A) : Prop := forall s, same_wiring s (fst (m s)).

Definition console_ok (out : Stream) (h : Handler) : Prop :=
  match h with
  | StreamHandler st _ => st = out
  | FileHandler _ _ => True
  end.

(** Every stream handler sits on the plain stream [out]; before the
    singleton exists the [sys] slots hold plain streams, afterwards they
    hold the shims and the root logger has handlers. *)
Definition wired (out err : Stream) (s : Process) : Prop :=
  Forall (console_ok out) (root_handlers s) /\
  match _logger_instance s with
  | None => sys_stdout s = out /\ sys_stderr s = err
  | Some _ =>
      sys_stdout s = StreamToLogger RootLogger sys___stdout__ /\
      sys_stderr s = StreamToLogger RootLogger sys___stdout__ /\
      root_handlers s <> []
  end.

(* ===================================================================== *)
(** ** Text in the scope of the model *)
(* ===================================================================== *)

(** The model's [isspace], [upper] and [lower] are those of Python on
    ASCII text; a statement that depends on what is trimmed says that its
    text is ASCII. *)
Definition is_ascii_char (c : ascii) : bool := (Str.code c <? 128)%nat.

Definition ascii_text (s : string) : bool := Str.all is_ascii_char s.

(** The text is not empty and its last character is not whitespace. *)
Fixpoint ends_nonspace (s : string) : bool :=
  match s with
  | EmptyString => false
  | String c EmptyString => negb (Str.isspace c)
  | String _ r => ends_nonspace r
  end.

(** The call of the specification's scenario: file level [warning],
    console level [debug]. *)
Definition demo_warn_args : Args := mkArgs "svc" (Some (ArgStr "/tmp/x")) "warning" "debug".

Definition demo_warn_active : Process := fst (construct demo_warn_args demo).

(** A call with file level [error] and console level [warning]. *)
Definition demo_quiet_args : Args := mkArgs "svc" (Some (ArgStr "/tmp/x")) "Error" "WARNING".

Definition demo_quiet_active : Process := fst (construct demo_quiet_args demo).

(* ===================================================================== *)
(** ** Vocabulary of the further properties *)
(* ===================================================================== *)


(** The process at the end of a first run that printed one line, and a
    second process started later on the files the first one left. *)
Definition demo_first_run_end : Process :=
  fst (Stream_write 1 (sys_stdout demo_active) "hello" demo_active).

Definition demo_second_run : Process := set_fs (fs demo_first_run_end) demo.

(** Constructor arguments whose console level is refused by [setLevel]. *)
Definition demo_bad_console : Args := mkArgs "svc" (Some (ArgStr "/tmp/x")) "debug" "_styles".

(** A process in which a regular file [/tmp/x/logs] is in the way of the
    log root. *)
Definition demo_blocked : Process :=
  set_fs (<["/tmp/x/logs" := File ["not a folder"]]> (fs demo)) demo.

(* ===================================================================== *)
(** ** The model on concrete inputs *)
(* ===================================================================== *)

Example rstrip_line : Str.rstrip ("hello  " +:+ Str.NL) = "hello".
Proof. reflexivity. Qed.

Example rstrip_keeps_inner : Str.rstrip " a b " = " a b".
Proof. reflexivity. Qed.

Example level_mixed_case : logging.level_arg "WaRnInG" logging.DEBUG = inr 30.
Proof. reflexivity. Qed.

Example level_unknown_file : logging.level_arg "verbose" logging.DEBUG = inr 10.
Proof. reflexivity. Qed.

Example level_unknown_console : logging.level_arg "verbose" logging.INFO = inr 20.
Proof. reflexivity. Qed.

Example path_of_str_drops_dots :
  pathlib.of_str "/tmp/./x//" = mkPath Abs ["tmp"; "x"].
Proof. reflexivity. Qed.

Example path_join_anchored :
  pathlib.join (pathlib.of_str "/tmp/x") (pathlib.of_str "/etc/app.log") =
  mkPath Abs ["etc"; "app.log"].
Proof. reflexivity. Qed.

Example print_hello :
  tty (fst (print 1 "hello" demo_active)) !!! 1%nat =
    ["hello" +:+ Str.NL; "2026-11-03 10:00:00 [INFO] [root] hello" +:+ Str.NL].
Proof. vm_compute. reflexivity. Qed.

Example debug_below_console_threshold :
  let s := fst (log_lhc.LoggerLHC_debug 0 (instance_of demo_args demo) "trace" demo_active) in
  tty s !!! 1%nat = [] /\
  fs s !! "/tmp/x/logs/2026-11-03/svc.log" =
    Some (File ["2026-11-03 10:00:00 [DEBUG] [svc] trace" +:+ Str.NL]).
Proof. vm_compute. split; reflexivity. Qed.

(* ===================================================================== *)
(** ** Text lemmas *)
(* ===================================================================== *)

Lemma rstrip_all_space (s : string) :
  Str.all Str.isspace s = true -> Str.rstrip s = EmptyString.
Proof.
  induction s as [|c r IH]; simpl; [reflexivity|].
  intros H. apply andb_prop in H as [Hc Hr].
  rewrite (IH Hr), Hc. reflexivity.
Qed.

Lemma rstrip_empty_all_space (s : string) :
  Str.rstrip s = EmptyString -> Str.all Str.isspace s = true.
Proof.
  induction s as [|c r IH]; simpl; [reflexivity|].
  destruct (Str.rstrip r) eqn:E; [|discriminate].
  destruct (Str.isspace c); [|discriminate].
  intros _. simpl. apply IH. reflexivity.
Qed.

Lemma all_app (p : ascii -> bool) (s t : string) :
  Str.all p (s +:+ t) = Str.all p s && Str.all p t.
Proof.
  induction s as [|c r IH]; simpl; [reflexivity|].
  rewrite IH. apply andb_assoc.
Qed.

(* ===================================================================== *)
(** ** The guard of the constructor *)
(* ===================================================================== *)

Lemma init_guard (a : Args) (s : Process) (i : LoggerLHC) :
  _logger_instance s = Some i -> construct a s = (s, inr None).
Proof.
  intros H. unfold construct, log_lhc.LoggerLHC__init__, bind, get.
  rewrite H. reflexivity.
Qed.

Lemma construct_all_guard (calls : list Args) (s : Process) (i : LoggerLHC) :
  _logger_instance s = Some i ->
  construct_all calls s = (s, inr (List.map (fun _ => None) calls)).
Proof.
  intros H. induction calls as [|a rest IH]; simpl; [reflexivity|].
  unfold bind. rewrite (init_guard a s i H), IH. reflexivity.
Qed.

(** Inversion of the monad's operations on a run that returned. *)
Lemma bind_inr {A B} (m : M A) (k : A -> M B) (s s' : Process) (b : B) :
  bind m k s = (s', inr b) ->
  exists s1 a, m s = (s1, inr a) /\ k a s1 = (s', inr b).
Proof.
  unfold bind. destruct (m s) as [s1 [e|a]]; intros H; [discriminate|].
  exists s1, a. split; [reflexivity|exact H].
Qed.

Lemma get_inr (s s' x : Process) : get s = (s', inr x) -> s' = s /\ x = s.
Proof. unfold get. intros H. injection H as <- <-. split; reflexivity. Qed.

Lemma modify_inr (f : Process -> Process) (s s' : Process) (u : unit) :
  modify f s = (s', inr u) -> s' = f s.
Proof. unfold modify. intros H. injection H as <- _. reflexivity. Qed.

Lemma lift_inr {A} (r : Exc + A) (s s' : Process) (a : A) :
  lift r s = (s', inr a) -> r = inr a /\ s' = s.
Proof.
  destruct r as [e|a0]; unfold lift, raise, ret; intros H; [discriminate|].
  injection H as <- <-. split; reflexivity.
Qed.

Lemma ret_inr {A} (x a : A) (s s' : Process) :
  ret x s = (s', inr a) -> s' = s /\ a = x.
Proof. unfold ret. intros H. injection H as <- <-. split; reflexivity. Qed.

Ltac run_bind H :=
  let s := fresh "s" in let a := fresh "a" in let Hm := fresh "Hm" in
  apply bind_inr in H as (s & a & Hm & H).

Lemma mkdir_inr (p : Path) (s s' : Process) (u : unit) :
  os.mkdir p s = (s', inr u) ->
  exists f, os.mkdir_chain (pathlib.chain (os.resolve (cwd s) p)) (fs s) = inr f /\
            s' = set_fs f s.
Proof.
  unfold os.mkdir. intros H.
  run_bind H. apply get_inr in Hm as [-> ->].
  run_bind H. apply lift_inr in Hm as [Hm ->].
  apply modify_inr in H. eauto.
Qed.

Lemma setup_handlers_inr (lf : Path) (flv clv : string) (s s' : Process) (u : unit) :
  log_lhc._setup_handlers lf flv clv s = (s', inr u) ->
  exists f fl cl,
    os.open_append (os.resolve (cwd s) lf) (fs s) = inr f /\
    logging.level_arg flv logging.DEBUG = inr fl /\
    logging.level_arg clv logging.INFO = inr cl /\
    s' = set_root_handlers
           (root_handlers s ++ [FileHandler (os.key (cwd s) lf) fl;
                                StreamHandler (sys_stdout s) cl])
           (set_fs f s).
Proof.
  unfold log_lhc._setup_handlers, log_lhc.addHandler. intros H.
  run_bind H. apply get_inr in Hm as [-> ->].
  run_bind H. apply lift_inr in Hm as [Hop ->].
  run_bind H. apply modify_inr in Hm as ->.
  run_bind H. apply lift_inr in Hm as [Hfl ->].
  run_bind H. apply modify_inr in Hm as ->.
  run_bind H. apply get_inr in Hm as [-> ->].
  run_bind H. apply lift_inr in Hm as [Hcl ->].
  apply modify_inr in H as ->.
  exists a, a1, a3. repeat split; try assumption.
  destruct s. unfold set_root_handlers, set_fs.
  cbn [root_handlers sys_stdout sys_stderr tty fs cwd today asctime root_level
       _logger_instance].
  rewrite <- List.app_assoc. reflexivity.
Qed.

(** A constructor call that gets past the guard and returns has done all of
    [__init__]: the state it leaves is spelled out here. *)
Lemma init_success (a : Args) (s0 s1 : Process) (o : option LoggerLHC) :
  _logger_instance s0 = None ->
  construct a s0 = (s1, inr o) ->
  exists (f1 f2 : gmap string Node) (fl cl : Z),
    os.mkdir_chain
      (pathlib.chain (os.resolve (cwd s0) (date_folder (instance_of a s0))))
      (fs s0) = inr f1 /\
    os.open_append (os.resolve (cwd s0) (log_file (instance_of a s0))) f1 = inr f2 /\
    logging.level_arg (arg_file_level a) logging.DEBUG = inr fl /\
    logging.level_arg (arg_console_level a) logging.INFO = inr cl /\
    o = Some (instance_of a s0) /\
    s1 = mkProcess (Some (instance_of a s0))
           (StreamToLogger RootLogger sys___stdout__)
           (StreamToLogger RootLogger sys___stdout__)
           logging.DEBUG
           (root_handlers s0 ++
              [FileHandler (os.key (cwd s0) (log_file (instance_of a s0))) fl;
               StreamHandler (sys_stdout s0) cl])
           (tty s0) f2 (cwd s0) (today s0) (asctime s0).
Proof.
  intros Hnone Hrun.
  unfold construct, log_lhc.LoggerLHC__init__ in Hrun.
  run_bind Hrun. apply get_inr in Hm as [-> ->].
  rewrite Hnone in Hrun.
  run_bind Hrun. apply mkdir_inr in Hm as (f1 & Hmk & ->).
  run_bind Hrun. apply modify_inr in Hm as ->.
  run_bind Hrun. apply setup_handlers_inr in Hm as (f2 & fl & cl & Hop & Hfl & Hcl & ->).
  unfold log_lhc._capture_prints in Hrun.
  run_bind Hrun. run_bind Hm. apply modify_inr in Hm0 as ->. apply modify_inr in Hm as ->.
  run_bind Hrun. apply modify_inr in Hm as ->.
  apply ret_inr in Hrun as [-> ->].
  exists f1, f2, fl, cl.
  destruct s0. repeat split; assumption.
Qed.

(* ===================================================================== *)
(** ** File-system lemmas *)
(* ===================================================================== *)

Lemma mkdir_chain_keeps (c : list Path) (f f' : gmap string Node) (k : string) (n : Node) :
  os.mkdir_chain c f = inr f' -> f !! k = Some n -> f' !! k = Some n.
Proof.
  revert f. induction c as [|p rest IH]; intros f Hrun Hk; simpl in Hrun.
  - inversion Hrun; subst. exact Hk.
  - destruct (f !! pathlib.to_str p) as [[|chunks]|] eqn:E.
    + eapply IH; eauto.
    + discriminate.
    + apply (IH _ Hrun). rewrite lookup_insert_ne; [exact Hk|].
      intros Heq. rewrite Heq in E. congruence.
Qed.

Lemma mkdir_chain_dirs (c : list Path) (f f' : gmap string Node) (p : Path) :
  os.mkdir_chain c f = inr f' -> In p c -> f' !! pathlib.to_str p = Some Dir.
Proof.
  revert f. induction c as [|q rest IH]; intros f Hrun Hin; [destruct Hin|].
  simpl in Hrun.
  destruct (f !! pathlib.to_str q) as [[|chunks]|] eqn:E; [| discriminate |].
  - destruct Hin as [->|Hin]; [|eapply IH; eauto].
    eapply mkdir_chain_keeps; eauto.
  - destruct Hin as [->|Hin]; [|eapply IH; eauto].
    eapply mkdir_chain_keeps; eauto. apply lookup_insert_eq.
Qed.

Lemma prefixes_self {A} (l : list A) : l <> [] -> In l (pathlib.prefixes l).
Proof.
  induction l as [|x r IH]; intros H; [congruence|].
  simpl. destruct r as [|y r'].
  - left. reflexivity.
  - right. apply in_map. apply IH. discriminate.
Qed.

Lemma chain_self (p : Path) : parts p <> [] -> In p (pathlib.chain p).
Proof.
  destruct p as [r l]. cbn [parts]. intros H. unfold pathlib.chain. cbn [root parts].
  apply (in_map (mkPath r)). apply prefixes_self. exact H.
Qed.

Lemma open_append_file (p : Path) (f f2 : gmap string Node) :
  os.open_append p f = inr f2 ->
  exists c, f2 !! pathlib.to_str p = Some (File c) /\
            (f !! pathlib.to_str p = None -> c = []) /\
            (forall c0, f !! pathlib.to_str p = Some (File c0) -> c = c0).
Proof.
  unfold os.open_append, os.node. intros H.
  destruct (parts p) as [|x r] eqn:Ep; [discriminate|].
  destruct (f !! pathlib.to_str p) as [[|c0]|] eqn:E; [discriminate| |].
  - inversion H; subst. exists c0. rewrite E. repeat split; congruence.
  - destruct (match parts (pathlib.parent p) with [] => _ | _ => _ end) as [[|c1]|];
      try discriminate.
    inversion H; subst. exists []. rewrite lookup_insert_eq.
    repeat split; congruence.
Qed.

Lemma open_append_keeps (p : Path) (f f2 : gmap string Node) (k : string) (n : Node) :
  os.open_append p f = inr f2 -> f !! k = Some n -> f2 !! k = Some n.
Proof.
  unfold os.open_append, os.node. intros H Hk.
  destruct (parts p) as [|x r] eqn:Ep; [discriminate|].
  destruct (f !! pathlib.to_str p) as [[|c0]|] eqn:E; [discriminate| |].
  - inversion H; subst. exact Hk.
  - destruct (match parts (pathlib.parent p) with [] => _ | _ => _ end) as [[|c1]|];
      try discriminate.
    inversion H; subst. rewrite lookup_insert_ne; [exact Hk|].
    intros Heq. rewrite Heq in E. congruence.
Qed.

(* ===================================================================== *)
(** ** Emitting a record in an active process *)
(* ===================================================================== *)

Lemma Stream_write_TextIO (depth fd : nat) (chunk : string) :
  Stream_write depth (TextIO fd) chunk = TextIO_write fd chunk.
Proof. destruct depth; reflexivity. Qed.

Lemma init_fresh (a : Args) (s0 s1 : Process) (o : option LoggerLHC) :
  _logger_instance s0 = None ->
  root_handlers s0 = [] ->
  construct a s0 = (s1, inr o) ->
  exists (f1 f2 : gmap string Node) (fl cl : Z),
    os.mkdir_chain
      (pathlib.chain (os.resolve (cwd s0) (date_folder (instance_of a s0))))
      (fs s0) = inr f1 /\
    os.open_append (os.resolve (cwd s0) (log_file (instance_of a s0))) f1 = inr f2 /\
    logging.level_arg (arg_file_level a) logging.DEBUG = inr fl /\
    logging.level_arg (arg_console_level a) logging.INFO = inr cl /\
    o = Some (instance_of a s0) /\
    s1 = active (instance_of a s0) (os.key (cwd s0) (log_file (instance_of a s0)))
                fl cl (sys_stdout s0) (tty s0) f2 (cwd s0) (today s0) (asctime s0).
Proof.
  intros Hnone Hh Hrun.
  destruct (init_success a s0 s1 o Hnone Hrun)
    as (f1 & f2 & fl & cl & H1 & H2 & H3 & H4 & H5 & H6).
  exists f1, f2, fl, cl. rewrite Hh in H6. repeat split; assumption.
Qed.

Lemma root_passes (sev : logging.Severity) :
  (logging.DEBUG <=? logging.levelno sev) = true.
Proof. destruct sev; reflexivity. Qed.

(** A record logged in an active process whose console handler sits on a
    plain stream: each handler gets it when its level allows. *)
Lemma log_active (depth : nat) (l : LoggerRef) (sev : logging.Severity) (msg : string)
    i k fl cl fd t f wd d tm :
  Logger_log (Stream_write depth) l sev msg (active i k fl cl (TextIO fd) t f wd d tm) =
  (let line := fmt tm (logging.levelname sev) (logger_name l) msg +:+ Str.NL in
   active i k fl cl (TextIO fd)
     (emit_tty (cl <=? logging.levelno sev) fd line t)
     (emit_fs (fl <=? logging.levelno sev) k line f) wd d tm,
   inr tt).
Proof.
  unfold Logger_log, bind, get, active.
  cbn [root_level root_handlers asctime].
  rewrite root_passes.
  cbn [callHandlers Handler_emit handler_level].
  rewrite Stream_write_TextIO.
  unfold emit_fs, emit_tty.
  destruct (fl <=? logging.levelno sev), (cl <=? logging.levelno sev); reflexivity.
Qed.

(** A write to a shim of an active process, with text left after the
    trim. *)
Lemma shim_write_active (d0 : nat) (text : string)
    i k fl cl fd t f wd d tm :
  Str.rstrip text <> EmptyString ->
  Stream_write (S d0) (StreamToLogger RootLogger sys___stdout__) text
    (active i k fl cl (TextIO fd) t f wd d tm) =
  (let m := Str.rstrip text in
   let line := fmt tm "INFO" "root" m +:+ Str.NL in
   active i k fl cl (TextIO fd)
     (emit_tty (cl <=? logging.INFO) fd line
        (<[1%nat := (t !!! 1%nat) ++ [m +:+ Str.NL]]> t))
     (emit_fs (fl <=? logging.INFO) k line f) wd d tm,
   inr tt).
Proof.
  intros Hne. unfold sys___stdout__. cbn [Stream_write].
  destruct (Str.rstrip text) as [|c m] eqn:E; [congruence|].
  cbn [Str.is_empty]. rewrite Stream_write_TextIO.
  unfold bind at 1. unfold TextIO_write, modify, set_tty, active at 1.
  cbn [_logger_instance sys_stdout sys_stderr root_level root_handlers tty fs cwd
       today asctime].
  unfold bind at 1. cbn [Stream_flush ret].
  exact (log_active d0 RootLogger logging.SevInfo (String c m) i k fl cl fd
           (<[1%nat := (t !!! 1%nat) ++ [String c m +:+ Str.NL]]> t) f wd d tm).
Qed.

(** The guard is the only way for the constructor to return an object
    without attributes. *)
Lemma construct_built (a : Args) (s0 s1 : Process) (inst : LoggerLHC) :
  construct a s0 = (s1, inr (Some inst)) -> _logger_instance s0 = None.
Proof.
  intros H. destruct (_logger_instance s0) as [i|] eqn:E; [|reflexivity].
  rewrite (init_guard a s0 i E) in H. discriminate.
Qed.

(* ===================================================================== *)
(** ** Level strings *)
(* ===================================================================== *)

Lemma level_arg_upper (s t : string) (d : Z) :
  Str.upper s = Str.upper t -> logging.level_arg s d = logging.level_arg t d.
Proof. unfold logging.level_arg. intros ->. reflexivity. Qed.

Lemma upper_char_lower (c : ascii) : Str.upper_char (Str.lower_char c) = Str.upper_char c.
Proof. destruct c as [[] [] [] [] [] [] [] []]; reflexivity. Qed.

Lemma upper_char_upper (c : ascii) : Str.upper_char (Str.upper_char c) = Str.upper_char c.
Proof. destruct c as [[] [] [] [] [] [] [] []]; reflexivity. Qed.

Lemma upper_lower (s : string) : Str.upper (Str.lower s) = Str.upper s.
Proof.
  induction s as [|c r IH]; [reflexivity|].
  unfold Str.upper, Str.lower in *. cbn [Str.map].
  rewrite upper_char_lower, IH. reflexivity.
Qed.

Lemma upper_upper (s : string) : Str.upper (Str.upper s) = Str.upper s.
Proof.
  induction s as [|c r IH]; [reflexivity|].
  unfold Str.upper in *. cbn [Str.map].
  rewrite upper_char_upper, IH. reflexivity.
Qed.

(** The case of a level string does not matter. *)
Lemma level_arg_case_insensitive (s : string) (d : Z) :
  logging.level_arg (Str.lower s) d = logging.level_arg s d /\
  logging.level_arg (Str.upper s) d = logging.level_arg s d.
Proof.
  split; apply level_arg_upper; [apply upper_lower|apply upper_upper].
Qed.

(** A string whose upper-case form the [logging] module does not bind
    gives the default. *)
Lemma level_arg_fallback (s : string) (d : Z) :
  logging.module_attr (Str.upper s) = None -> logging.level_arg s d = inr d.
Proof. unfold logging.level_arg, logging.getattr. intros ->. reflexivity. Qed.

(* ===================================================================== *)
(** ** The claims *)
(* ===================================================================== *)

(** C1.  With the default thresholds (file DEBUG, console INFO) the chunk
    [hello] written to the intercepted [sys.stdout] is put on the terminal
    by the shim and then once more by the console handler, as a formatted
    record: the terminal shows the captured text on two lines.  The log
    file gets the one informational record. *)
Theorem C1_hello_on_console_twice :
  let s2 := fst (Stream_write 1 (sys_stdout demo_active) "hello" demo_active) in
  tty demo_active !!! 1%nat = [] /\
  tty s2 !!! 1%nat =
    ["hello" +:+ Str.NL;
     "2026-11-03 10:00:00 [INFO] [root] hello" +:+ Str.NL] /\
  fs demo_active !! "/tmp/x/logs/2026-11-03/svc.log" = Some (File []) /\
  fs s2 !! "/tmp/x/logs/2026-11-03/svc.log" =
    Some (File ["2026-11-03 10:00:00 [INFO] [root] hello" +:+ Str.NL]).
Proof. vm_compute. repeat split; reflexivity. Qed.

(** C2.  Once a constructor call has published the singleton, every later
    constructor call, whatever its arguments, returns without an exception
    and leaves the whole process as it was: the module global, the
    attributes of the instance, the handlers of the root logger and both
    [sys] slots.  So after any run of later calls the process is still the
    one the first call left, with the first call's configuration. *)
Theorem C2_later_constructions_are_noops
    (first : Args) (s0 s1 : Process) (o : option LoggerLHC) :
  _logger_instance s0 = None ->
  construct first s0 = (s1, inr o) ->
  _logger_instance s1 = Some (instance_of first s0) /\
  app_name (instance_of first s0) = arg_app_name first /\
  (forall later : Args, construct later s1 = (s1, inr None)) /\
  (forall rest : list Args,
     construct_all (first :: rest) s0 =
       (s1, inr (o :: List.map (fun _ => None) rest))).
Proof.
  intros Hnone Hrun.
  destruct (init_success first s0 s1 o Hnone Hrun)
    as (f1 & f2 & fl & cl & _ & _ & _ & _ & Ho & Hs).
  assert (Hi : _logger_instance s1 = Some (instance_of first s0))
    by (rewrite Hs; reflexivity).
  repeat split.
  - exact Hi.
  - intros later. eapply init_guard; eauto.
  - intros rest. cbn [construct_all]. unfold bind at 1. rewrite Hrun.
    unfold bind. rewrite (construct_all_guard rest s1 _ Hi). reflexivity.
Qed.

Lemma C2_witness :
  _logger_instance demo_active = Some (instance_of demo_args demo) /\
  app_name (instance_of demo_args demo) = "svc" /\
  (forall later : Args, construct later demo_active = (demo_active, inr None)) /\
  (forall rest : list Args,
     construct_all (demo_args :: rest) demo =
       (demo_active,
        inr (Some (instance_of demo_args demo) :: List.map (fun _ => None) rest))).
Proof.
  apply (C2_later_constructions_are_noops demo_args demo demo_active
           (Some (instance_of demo_args demo))).
  - reflexivity.
  - vm_compute. reflexivity.
Defined.

Lemma method_log (sev : logging.Severity) (depth : nat) (i : LoggerLHC) (msg : string) :
  method sev depth i msg = log_lhc.LoggerLHC_log depth i sev msg.
Proof. destruct sev; reflexivity. Qed.

Lemma shortcut_forwards (sev : logging.Severity) (depth : nat) (msg : string)
    (s : Process) (i : LoggerLHC) :
  _logger_instance s = Some i -> shortcut sev depth msg s = method sev depth i msg s.
Proof.
  intros H.
  destruct sev; unfold shortcut, log_lhc.log_debug, log_lhc.log_info,
    log_lhc.log_warning, log_lhc.log_error, log_lhc._log_func, bind, get;
    rewrite H; reflexivity.
Qed.

Lemma shortcut_uninitialized (sev : logging.Severity) (depth : nat) (msg : string)
    (s : Process) :
  _logger_instance s = None ->
  shortcut sev depth msg s = (s, inl (RuntimeError log_lhc.not_initialized)).
Proof.
  intros H.
  destruct sev; unfold shortcut, log_lhc.log_debug, log_lhc.log_info,
    log_lhc.log_warning, log_lhc.log_error, log_lhc._log_func, bind, get;
    rewrite H; reflexivity.
Qed.

(** C5.  With no singleton every shortcut method raises the
    [RuntimeError] whose message says that the logger is not initialized,
    and changes nothing.  After a constructor call that succeeded in a
    process without handlers, every shortcut method runs the instance's
    method of the same name on the message and raises nothing. *)
Theorem C5_shortcut_guard_and_forwarding
    (a : Args) (s s0 s1 : Process) (inst : LoggerLHC) (fd : nat)
    (sev : logging.Severity) (depth : nat) (msg : string) :
  _logger_instance s = None ->
  _logger_instance s0 = None ->
  root_handlers s0 = [] ->
  sys_stdout s0 = TextIO fd ->
  construct a s0 = (s1, inr (Some inst)) ->
  shortcut sev depth msg s = (s, inl (RuntimeError log_lhc.not_initialized)) /\
  Str.contains "not initialized" log_lhc.not_initialized = true /\
  _logger_instance s1 = Some inst /\
  shortcut sev depth msg s1 = method sev depth inst msg s1 /\
  snd (shortcut sev depth msg s1) = inr tt.
Proof.
  intros Hs Hnone Hh Hout Hrun.
  destruct (init_fresh a s0 s1 _ Hnone Hh Hrun)
    as (f1 & f2 & fl & cl & _ & _ & _ & _ & Ho & Hs1).
  injection Ho as Ho.
  assert (Hi : _logger_instance s1 = Some inst) by (rewrite Hs1, Ho; reflexivity).
  split; [apply shortcut_uninitialized; exact Hs|].
  split; [reflexivity|].
  split; [exact Hi|].
  split; [apply shortcut_forwards; exact Hi|].
  rewrite (shortcut_forwards sev depth msg s1 inst Hi), method_log.
  unfold log_lhc.LoggerLHC_log. rewrite Hs1, Hout, log_active. reflexivity.
Qed.

Lemma C5_witness :
  shortcut logging.SevWarning 0 "boom" demo =
    (demo, inl (RuntimeError log_lhc.not_initialized)) /\
  Str.contains "not initialized" log_lhc.not_initialized = true /\
  _logger_instance demo_active = Some (instance_of demo_args demo) /\
  shortcut logging.SevWarning 0 "boom" demo_active =
    method logging.SevWarning 0 (instance_of demo_args demo) "boom" demo_active /\
  snd (shortcut logging.SevWarning 0 "boom" demo_active) = inr tt.
Proof.
  apply (C5_shortcut_guard_and_forwarding demo_args demo demo demo_active
           (instance_of demo_args demo) 1%nat logging.SevWarning 0 "boom").
  - reflexivity.
  - reflexivity.
  - reflexivity.
  - reflexivity.
  - vm_compute. reflexivity.
Defined.

(** C6.  Both [sys] slots are replaced by a shim, and both shims hold
    [sys.__stdout__]: text written to the intercepted [sys.stderr] is
    passed to the original standard output, and the original standard
    error receives nothing. *)
Theorem C6_stderr_shim_writes_to_stdout :
  let s2 := fst (Stream_write 1 (sys_stderr demo_active) "oops" demo_active) in
  sys_stderr demo = TextIO 2 /\
  sys_stdout demo_active = StreamToLogger RootLogger (TextIO 1) /\
  sys_stderr demo_active = StreamToLogger RootLogger (TextIO 1) /\
  tty s2 !!! 2%nat = [] /\
  tty s2 !!! 1%nat =
    ["oops" +:+ Str.NL; "2026-11-03 10:00:00 [INFO] [root] oops" +:+ Str.NL].
Proof. vm_compute. repeat split; reflexivity. Qed.

(** C8.  A level string that names no level can make the constructor
    raise: [basic_format] is upper-cased to the name of the module's
    format string, [getattr] finds it, and [setLevel] refuses the value
    with [ValueError]; the singleton is not published.  [_styles] ends in a
    [TypeError] the same way. *)
Theorem C8_basic_format_raises :
  snd (construct (mkArgs "svc" None "basic_format" "info") demo) =
    inl (ValueError ("Unknown level: " +:+ logging.BASIC_FORMAT)) /\
  snd (construct (mkArgs "svc" None "debug" "basic_format") demo) =
    inl (ValueError ("Unknown level: " +:+ logging.BASIC_FORMAT)) /\
  snd (construct (mkArgs "svc" None "_styles" "info") demo) = inl TypeError /\
  _logger_instance (fst (construct (mkArgs "svc" None "basic_format" "info") demo)) = None.
Proof. vm_compute. repeat split; reflexivity. Qed.

(** C9.  A write of the empty string, or of whitespace and line ends only,
    to the intercepted [sys.stdout] (or [sys.stderr]) returns at once: the
    process is left exactly as it was, so no record is logged and nothing
    reaches the terminal. *)
Theorem C9_blank_write_discarded
    (a : Args) (s0 s1 : Process) (inst : LoggerLHC) (text : string) (d : nat) :
  construct a s0 = (s1, inr (Some inst)) ->
  Str.all Str.isspace text = true ->
  Stream_write (S d) (sys_stdout s1) text s1 = (s1, inr tt) /\
  Stream_write (S d) (sys_stderr s1) text s1 = (s1, inr tt).
Proof.
  intros Hrun Hblank.
  pose proof (construct_built a s0 s1 inst Hrun) as Hnone.
  destruct (init_success a s0 s1 _ Hnone Hrun)
    as (f1 & f2 & fl & cl & _ & _ & _ & _ & _ & Hs1).
  assert (Hout : sys_stdout s1 = StreamToLogger RootLogger (TextIO 1))
    by (rewrite Hs1; reflexivity).
  assert (Herr : sys_stderr s1 = StreamToLogger RootLogger (TextIO 1))
    by (rewrite Hs1; reflexivity).
  rewrite Hout, Herr. cbn [Stream_write].
  rewrite (rstrip_all_space text Hblank). split; reflexivity.
Qed.

Lemma C9_witness :
  Stream_write 1 (sys_stdout demo_active) ("  " +:+ Str.NL) demo_active =
    (demo_active, inr tt) /\
  Stream_write 1 (sys_stderr demo_active) ("  " +:+ Str.NL) demo_active =
    (demo_active, inr tt).
Proof.
  apply (C9_blank_write_discarded demo_args demo demo_active
           (instance_of demo_args demo) ("  " +:+ Str.NL) 0).
  - vm_compute. reflexivity.
  - reflexivity.
Defined.

(* ===================================================================== *)
(** ** What the sinks hold after a record *)
(* ===================================================================== *)

Lemma emit_fs_lookup (pass : bool) (k chunk : string) (f : gmap string Node)
    (c : list string) :
  f !! k = Some (File c) ->
  emit_fs pass k chunk f !! k = Some (File (c ++ if pass then [chunk] else [])).
Proof.
  intros H. unfold emit_fs. destruct pass.
  - rewrite lookup_alter_eq, H. reflexivity.
  - rewrite H, List.app_nil_r. reflexivity.
Qed.

Lemma emit_tty_lookup (pass : bool) (fd : nat) (chunk : string)
    (t : gmap nat (list string)) :
  emit_tty pass fd chunk t !!! fd = (t !!! fd) ++ if pass then [chunk] else [].
Proof.
  unfold emit_tty. destruct pass.
  - apply lookup_total_insert_eq.
  - rewrite List.app_nil_r. reflexivity.
Qed.

Lemma emit_tty_lookup_ne (pass : bool) (fd fd' : nat) (chunk : string)
    (t : gmap nat (list string)) :
  fd <> fd' -> emit_tty pass fd chunk t !!! fd' = t !!! fd'.
Proof.
  intros H. unfold emit_tty. destruct pass; [|reflexivity].
  apply lookup_total_insert_ne. exact H.
Qed.

(** A level string that spells, in any case, the name of one of the four
    severities stands for that severity's level, whatever the default. *)
Lemma level_arg_named (s : string) (t : logging.Severity) (d : Z) :
  Str.upper s = logging.levelname t -> logging.level_arg s d = inr (logging.levelno t).
Proof. unfold logging.level_arg. intros ->. destruct t; reflexivity. Qed.

(** C3.  Let the constructor be called, in a process without handlers,
    with a file level string that spells (in any case) the severity [tf]
    and a console level string that spells the severity [tc], and let it
    succeed.  Then the file handler has the level of [tf] and the console
    handler the level of [tc], and a record emitted through the leveled
    method of the instance for the severity [sev], with any message, is
    appended to the log file exactly when [sev] is at least [tf], and to
    the console stream exactly when [sev] is at least [tc]. *)
Theorem C3_threshold_routing
    (a : Args) (s0 s1 : Process) (inst : LoggerLHC) (fd : nat)
    (tf tc sev : logging.Severity) (msg : string) (depth : nat) :
  _logger_instance s0 = None ->
  root_handlers s0 = [] ->
  sys_stdout s0 = TextIO fd ->
  Str.upper (arg_file_level a) = logging.levelname tf ->
  Str.upper (arg_console_level a) = logging.levelname tc ->
  construct a s0 = (s1, inr (Some inst)) ->
  exists c : list string,
    root_handlers s1 =
      [FileHandler (os.key (cwd s0) (log_file inst)) (logging.levelno tf);
       StreamHandler (TextIO fd) (logging.levelno tc)] /\
    fs s1 !! os.key (cwd s0) (log_file inst) = Some (File c) /\
    let line :=
      fmt (asctime s1) (logging.levelname sev) (logger_name (logger inst)) msg
        +:+ Str.NL in
    let r := method sev depth inst msg s1 in
    snd r = inr tt /\
    fs (fst r) !! os.key (cwd s0) (log_file inst) =
      Some (File (c ++ if logging.levelno tf <=? logging.levelno sev
                       then [line] else [])) /\
    tty (fst r) !!! fd =
      (tty s1 !!! fd) ++ if logging.levelno tc <=? logging.levelno sev
                         then [line] else [].
Proof.
  intros Hnone Hh Hout Htf Htc Hrun.
  destruct (init_fresh a s0 s1 _ Hnone Hh Hrun)
    as (f1 & f2 & fl & cl & _ & Hop & Hfl & Hcl & Ho & Hs1).
  injection Ho as Ho. rewrite <- Ho in *. clear Ho.
  rewrite (level_arg_named _ tf _ Htf) in Hfl. injection Hfl as <-.
  rewrite (level_arg_named _ tc _ Htc) in Hcl. injection Hcl as <-.
  destruct (open_append_file _ _ _ Hop) as (c & Hc & _).
  rewrite Hout in Hs1. subst s1.
  exists c.
  split; [reflexivity|].
  split; [exact Hc|].
  cbv zeta.
  rewrite method_log. unfold log_lhc.LoggerLHC_log.
  rewrite log_active. cbn [fst snd]. unfold active. cbn [fs tty asctime].
  split; [reflexivity|].
  split; [apply emit_fs_lookup; exact Hc | apply emit_tty_lookup].
Qed.

(** The scenario with file level [warning] and console level [debug]: a
    debug record is shown on the console and kept out of the file, whose
    handler has level 30. *)
Lemma C3_witness :
  root_handlers demo_warn_active =
    [FileHandler "/tmp/x/logs/2026-11-03/svc.log" 30; StreamHandler (TextIO 1) 10] /\
  snd (method logging.SevDebug 0 (instance_of demo_warn_args demo) "trace"
         demo_warn_active) = inr tt /\
  fs (fst (method logging.SevDebug 0 (instance_of demo_warn_args demo) "trace"
             demo_warn_active))
    !! "/tmp/x/logs/2026-11-03/svc.log" = Some (File []) /\
  tty (fst (method logging.SevDebug 0 (instance_of demo_warn_args demo) "trace"
              demo_warn_active)) !!! 1%nat =
    ["2026-11-03 10:00:00 [DEBUG] [svc] trace" +:+ Str.NL].
Proof.
  destruct (C3_threshold_routing demo_warn_args demo demo_warn_active
              (instance_of demo_warn_args demo) 1%nat
              logging.SevWarning logging.SevDebug logging.SevDebug "trace" 0)
    as (c & Hh & Hc & Hok & Hfile & Htty).
  - reflexivity.
  - reflexivity.
  - reflexivity.
  - reflexivity.
  - reflexivity.
  - vm_compute. reflexivity.
  - assert (E : c = []) by (vm_compute in Hc; congruence).
    subst c.
    split; [exact Hh|]. split; [exact Hok|]. split; [exact Hfile|exact Htty].
Defined.

Lemma rstrip_ends_nonspace (s : string) :
  ends_nonspace s = true -> Str.rstrip s = s.
Proof.
  induction s as [|c r IH]; [discriminate|].
  cbn [ends_nonspace Str.rstrip]. destruct r as [|c' r'].
  - cbn [Str.rstrip]. destruct (Str.isspace c); [discriminate|reflexivity].
  - intros H. rewrite (IH H). reflexivity.
Qed.

(** Trimming takes off exactly a whitespace tail that follows a text
    ending in something else. *)
Lemma rstrip_body (body w : string) :
  ends_nonspace body = true ->
  Str.all Str.isspace w = true ->
  Str.rstrip (body +:+ w) = body.
Proof.
  intros Hb Hw. induction body as [|c r IH]; [discriminate|].
  change (String c r +:+ w) with (String c (r +:+ w)). cbn [Str.rstrip].
  destruct r as [|c' r'].
  - change (EmptyString +:+ w) with w. rewrite (rstrip_all_space w Hw).
    cbn [ends_nonspace] in Hb. destruct (Str.isspace c); [discriminate|reflexivity].
  - rewrite (IH Hb). reflexivity.
Qed.

(** Every text that is not blank is such a body followed by such a
    tail. *)
Lemma rstrip_split (text : string) :
  Str.rstrip text <> EmptyString ->
  ends_nonspace (Str.rstrip text) = true /\
  exists w, Str.all Str.isspace w = true /\ text = Str.rstrip text +:+ w.
Proof.
  induction text as [|c r IH]; [intros H; exfalso; apply H; reflexivity|].
  cbn [Str.rstrip]. destruct (Str.rstrip r) as [|c' r'] eqn:E.
  - destruct (Str.isspace c) eqn:Ec; [intros H; exfalso; apply H; reflexivity|].
    intros _. split; [cbn [ends_nonspace]; rewrite Ec; reflexivity|].
    exists r. split; [apply rstrip_empty_all_space; exact E|reflexivity].
  - intros _. destruct IH as [Hend (w & Hw & Hr)]; [discriminate|].
    split; [exact Hend|].
    exists w. split; [exact Hw|].
    change (String c (String c' r') +:+ w) with (String c (String c' r' +:+ w)).
    rewrite <- Hr. reflexivity.
Qed.

(** C7.  Let the constructor succeed, in a process without handlers, with
    level strings that spell the severities [tf] for the file and [tc] for
    the console.  A write to the intercepted [sys.stdout] or [sys.stderr] of
    an ASCII text made of a body that ends in a character other than
    whitespace and of a whitespace tail puts the body and one line end on
    the terminal whatever [tc] is (the console handler may add its own
    record after it), and appends the informational record of the body to
    the log file exactly when INFO is at least [tf]. *)
Theorem C7_echo_unconditional_file_gated
    (a : Args) (s0 s1 : Process) (inst : LoggerLHC) (fd : nat)
    (tf tc : logging.Severity) (st : Stream) (body w : string) (d : nat) :
  _logger_instance s0 = None ->
  root_handlers s0 = [] ->
  sys_stdout s0 = TextIO fd ->
  Str.upper (arg_file_level a) = logging.levelname tf ->
  Str.upper (arg_console_level a) = logging.levelname tc ->
  construct a s0 = (s1, inr (Some inst)) ->
  st = sys_stdout s1 \/ st = sys_stderr s1 ->
  ascii_text body = true ->
  ends_nonspace body = true ->
  Str.all Str.isspace w = true ->
  exists c : list string,
    fs s1 !! os.key (cwd s0) (log_file inst) = Some (File c) /\
    let line := fmt (asctime s1) "INFO" "root" body +:+ Str.NL in
    let r := Stream_write (S d) st (body +:+ w) s1 in
    snd r = inr tt /\
    tty (fst r) !!! 1%nat =
      (tty s1 !!! 1%nat) ++ [body +:+ Str.NL] ++
      (if (logging.levelno tc <=? logging.INFO) && (fd =? 1)%nat then [line] else []) /\
    fs (fst r) !! os.key (cwd s0) (log_file inst) =
      Some (File (c ++ if logging.levelno tf <=? logging.INFO then [line] else [])).
Proof.
  intros Hnone Hh Hout Htf Htc Hrun Hst _ Hbody Hw.
  destruct (init_fresh a s0 s1 _ Hnone Hh Hrun)
    as (f1 & f2 & fl & cl & _ & Hop & Hfl & Hcl & Ho & Hs1).
  injection Ho as Ho. rewrite <- Ho in *. clear Ho.
  rewrite (level_arg_named _ tf _ Htf) in Hfl. injection Hfl as <-.
  rewrite (level_arg_named _ tc _ Htc) in Hcl. injection Hcl as <-.
  destruct (open_append_file _ _ _ Hop) as (c & Hc & _).
  rewrite Hout in Hs1. subst s1.
  assert (Hshim : st = StreamToLogger RootLogger sys___stdout__)
    by (destruct Hst as [->| ->]; reflexivity).
  subst st.
  pose proof (rstrip_body body w Hbody Hw) as Htrim.
  assert (Htext : Str.rstrip (body +:+ w) <> EmptyString).
  { rewrite Htrim. destruct body; discriminate. }
  exists c. split; [exact Hc|].
  cbv zeta. rewrite (shim_write_active d (body +:+ w) _ _ _ _ _ _ _ _ _ _ Htext).
  cbn [fst snd]. cbv zeta. rewrite Htrim. unfold active. cbn [fs tty asctime].
  split; [reflexivity|].
  split; [|apply emit_fs_lookup; exact Hc].
  destruct (Nat.eqb_spec fd 1) as [->|Hne].
  - rewrite emit_tty_lookup, lookup_total_insert_eq, andb_true_r.
    rewrite <- List.app_assoc. reflexivity.
  - rewrite (emit_tty_lookup_ne _ _ _ _ _ Hne), lookup_total_insert_eq, andb_false_r.
    reflexivity.
Qed.

(** File level [Error], console level [WARNING]: the text [hello] followed
    by a blank and a line end is echoed as the one line [hello], although
    the console handler keeps the record back, and INFO being below the
    file level the record is not in the file. *)
Lemma C7_witness :
  snd (Stream_write 1 (sys_stdout demo_quiet_active) ("hello" +:+ (" " +:+ Str.NL))
         demo_quiet_active) = inr tt /\
  tty (fst (Stream_write 1 (sys_stdout demo_quiet_active) ("hello" +:+ (" " +:+ Str.NL))
              demo_quiet_active)) !!! 1%nat =
    ["hello" +:+ Str.NL] /\
  fs (fst (Stream_write 1 (sys_stdout demo_quiet_active) ("hello" +:+ (" " +:+ Str.NL))
             demo_quiet_active))
    !! "/tmp/x/logs/2026-11-03/svc.log" = Some (File []).
Proof.
  destruct (C7_echo_unconditional_file_gated demo_quiet_args demo demo_quiet_active
              (instance_of demo_quiet_args demo) 1%nat
              logging.SevError logging.SevWarning
              (sys_stdout demo_quiet_active) "hello" (" " +:+ Str.NL) 0)
    as (c & Hc & Hok & Htty & Hfile).
  - reflexivity.
  - reflexivity.
  - reflexivity.
  - reflexivity.
  - reflexivity.
  - vm_compute. reflexivity.
  - left. reflexivity.
  - reflexivity.
  - reflexivity.
  - reflexivity.
  - assert (E : c = []) by (vm_compute in Hc; congruence).
    subst c.
    split; [exact Hok|]. split; [exact Htty|exact Hfile].
Defined.

(* ===================================================================== *)
(** ** Path lemmas *)
(* ===================================================================== *)

Lemma split_no_slash (s : string) :
  no_slash s = true -> pathlib.split_slash s = [s].
Proof.
  induction s as [|c r IH]; [reflexivity|].
  unfold no_slash. cbn [Str.all pathlib.split_slash]. intros H.
  apply andb_prop in H as [Hc Hr]. unfold not_slash in Hc.
  destruct (Ascii.eqb c pathlib.slash); [discriminate|].
  rewrite (IH Hr). reflexivity.
Qed.

Lemma root_of_no_slash (s : string) : no_slash s = true -> pathlib.root_of s = Rel.
Proof.
  destruct s as [|c r]; [reflexivity|].
  unfold no_slash. cbn [Str.all pathlib.root_of]. intros H.
  apply andb_prop in H as [Hc _]. unfold not_slash in Hc.
  destruct (Ascii.eqb c pathlib.slash); [discriminate|reflexivity].
Qed.

Lemma of_str_plain (s : string) :
  no_slash s = true -> pathlib.keep_part s = true -> pathlib.of_str s = mkPath Rel [s].
Proof.
  intros Hs Hk. unfold pathlib.of_str.
  rewrite (root_of_no_slash s Hs), (split_no_slash s Hs).
  cbn [List.filter]. rewrite Hk. reflexivity.
Qed.

Lemma digit_not_slash (n : nat) : not_slash (datetime.digit n) = true.
Proof.
  unfold datetime.digit.
  pose proof (Nat.mod_upper_bound n 10 ltac:(lia)) as Hlt.
  set (k := (n mod 10)%nat) in *. clearbody k.
  do 10 (destruct k as [|k]; [reflexivity|]). lia.
Qed.

Lemma isoformat_no_slash (d : Date) : no_slash (datetime.isoformat d) = true.
Proof.
  unfold no_slash, datetime.isoformat, datetime.pad4, datetime.pad2.
  cbv [String.append]. cbn [Str.all].
  rewrite !digit_not_slash. reflexivity.
Qed.

Lemma isoformat_keep (d : Date) : pathlib.keep_part (datetime.isoformat d) = true.
Proof.
  unfold pathlib.keep_part, datetime.isoformat, datetime.pad4, datetime.pad2.
  cbv [String.append]. cbn [String.eqb].
  destruct (Ascii.eqb _ _); reflexivity.
Qed.

Lemma of_str_isoformat (d : Date) :
  pathlib.of_str (datetime.isoformat d) = mkPath Rel [datetime.isoformat d].
Proof. apply of_str_plain; [apply isoformat_no_slash|apply isoformat_keep]. Qed.

Lemma log_name_keep (a : string) : pathlib.keep_part (a +:+ ".log") = true.
Proof.
  unfold pathlib.keep_part.
  destruct a as [|c [|c' a']]; cbv [String.append]; cbn [String.eqb];
    try reflexivity; destruct (Ascii.eqb _ _); reflexivity.
Qed.

Lemma log_name_no_slash (a : string) :
  no_slash a = true -> no_slash (a +:+ ".log") = true.
Proof. unfold no_slash. intros H. rewrite all_app, H. reflexivity. Qed.

Lemma join_rel (p : Path) (l : list string) :
  pathlib.join p (mkPath Rel l) = mkPath (root p) (parts p ++ l).
Proof. reflexivity. Qed.

Lemma join_parts_nonempty (p q : Path) : parts q <> [] -> parts (pathlib.join p q) <> [].
Proof.
  intros H. unfold pathlib.join. destruct (root q); cbn [parts]; [|exact H|exact H].
  intros E. apply List.app_eq_nil in E as [_ E]. exact (H E).
Qed.

(** The date folder of an instance built with an explicit root. *)
Lemma date_folder_explicit (name r flv clv : string) (s0 : Process) :
  r <> EmptyString ->
  date_folder (instance_of (mkArgs name (Some (ArgStr r)) flv clv) s0) =
  mkPath (root (pathlib.of_str r))
         (parts (pathlib.of_str r) ++ ["logs"; datetime.isoformat (today s0)]).
Proof.
  intros Hr. unfold instance_of.
  cbn [date_folder arg_log_root arg_app_name log_lhc.root_or_cwd].
  destruct r as [|c r']; [congruence|]. cbn [Str.is_empty].
  rewrite of_str_isoformat.
  change (pathlib.of_str "logs") with (mkPath Rel ["logs"]).
  rewrite !join_rel. cbn [root parts]. rewrite <- List.app_assoc. reflexivity.
Qed.

Lemma log_file_date_folder (a : Args) (s0 : Process) :
  log_file (instance_of a s0) =
  pathlib.join (date_folder (instance_of a s0))
               (pathlib.of_str (arg_app_name a +:+ ".log")).
Proof. reflexivity. Qed.

(** C4, as the specification states it, fails: with root [/tmp/x] and name
    [svc] on 2026-11-03 the log file is [/tmp/x/logs/2026-11-03/svc.log];
    nothing is created at [/tmp/x/2026-11-03/svc.log]. *)
Lemma C4_counterexample :
  exists (s1 : Process) (inst : LoggerLHC),
    construct (mkArgs "svc" (Some (ArgStr "/tmp/x")) "debug" "info") demo =
      (s1, inr (Some inst)) /\
    spec_log_file "/tmp/x" (today demo) "svc" = "/tmp/x/2026-11-03/svc.log" /\
    pathlib.to_str (log_file inst) = "/tmp/x/logs/2026-11-03/svc.log" /\
    pathlib.to_str (log_file inst) <> spec_log_file "/tmp/x" (today demo) "svc" /\
    fs s1 !! spec_log_file "/tmp/x" (today demo) "svc" = None /\
    fs s1 !! "/tmp/x/logs/2026-11-03/svc.log" = Some (File []) /\
    root_handlers s1 =
      [FileHandler "/tmp/x/logs/2026-11-03/svc.log" 10; StreamHandler (TextIO 1) 20].
Proof.
  exists demo_active, (instance_of demo_args demo).
  vm_compute. repeat split; try reflexivity. discriminate.
Qed.

(** C4, amended.  After a constructor call with application name [a] and
    a non-empty root string [r] that got past the guard and returned, the
    date folder is [r], then [logs], then the date of the call as
    [YYYY-MM-DD]; the log file is the date folder joined with [a.log], which
    for a name without a slash is the one further component [a.log].  The
    date folder exists as a directory, the log file exists as a file, and
    the root logger's file handler writes to it. *)
Theorem C4_log_file_under_logs
    (name r flv clv : string) (s0 s1 : Process) (inst : LoggerLHC) :
  r <> EmptyString ->
  construct (mkArgs name (Some (ArgStr r)) flv clv) s0 = (s1, inr (Some inst)) ->
  let base := pathlib.of_str r in
  let dated :=
    mkPath (root base) (parts base ++ ["logs"; datetime.isoformat (today s0)]) in
  date_folder inst = dated /\
  log_file inst = pathlib.join dated (pathlib.of_str (name +:+ ".log")) /\
  (no_slash name = true ->
   log_file inst =
     mkPath (root base)
       (parts base ++ ["logs"; datetime.isoformat (today s0); name +:+ ".log"])) /\
  fs s1 !! os.key (cwd s0) (date_folder inst) = Some Dir /\
  (exists c, fs s1 !! os.key (cwd s0) (log_file inst) = Some (File c)) /\
  (exists fl, In (FileHandler (os.key (cwd s0) (log_file inst)) fl) (root_handlers s1)).
Proof.
  intros Hr Hrun. cbv zeta.
  pose proof (construct_built _ s0 s1 inst Hrun) as Hnone.
  destruct (init_success _ s0 s1 _ Hnone Hrun)
    as (f1 & f2 & fl & cl & Hmk & Hop & _ & _ & Ho & Hs1).
  injection Ho as Ho. subst inst.
  pose proof (date_folder_explicit name r flv clv s0 Hr) as Hdf.
  pose proof (log_file_date_folder (mkArgs name (Some (ArgStr r)) flv clv) s0) as Hlf.
  cbn [arg_app_name] in Hlf.
  split; [exact Hdf|].
  split; [rewrite Hlf, Hdf; reflexivity|].
  split.
  { intros Hname. rewrite Hlf, Hdf.
    rewrite (of_str_plain _ (log_name_no_slash name Hname) (log_name_keep name)).
    rewrite join_rel. cbn [root parts]. rewrite <- List.app_assoc. reflexivity. }
  split.
  { rewrite Hs1. cbn [fs]. unfold os.key.
    eapply open_append_keeps; [exact Hop|].
    eapply mkdir_chain_dirs; [exact Hmk|].
    apply chain_self. apply join_parts_nonempty. rewrite Hdf. cbn [parts].
    intros E. apply List.app_eq_nil in E as [_ E]. discriminate. }
  split.
  { destruct (open_append_file _ _ _ Hop) as (c & Hc & _).
    exists c. rewrite Hs1. exact Hc. }
  exists fl. rewrite Hs1. cbn [root_handlers].
  apply List.in_or_app. right. left. reflexivity.
Qed.

Lemma C4_witness :
  let base := pathlib.of_str "/tmp/x" in
  let dated :=
    mkPath (root base) (parts base ++ ["logs"; datetime.isoformat (today demo)]) in
  date_folder (instance_of demo_args demo) = dated /\
  log_file (instance_of demo_args demo) =
    pathlib.join dated (pathlib.of_str ("svc" +:+ ".log")) /\
  (no_slash "svc" = true ->
   log_file (instance_of demo_args demo) =
     mkPath (root base)
       (parts base ++ ["logs"; datetime.isoformat (today demo); "svc" +:+ ".log"])) /\
  fs demo_active !! os.key (cwd demo) (date_folder (instance_of demo_args demo)) =
    Some Dir /\
  (exists c, fs demo_active
               !! os.key (cwd demo) (log_file (instance_of demo_args demo)) =
             Some (File c)) /\
  (exists fl, In (FileHandler
                    (os.key (cwd demo) (log_file (instance_of demo_args demo))) fl)
                 (root_handlers demo_active)).
Proof.
  apply (C4_log_file_under_logs "svc" "/tmp/x" "debug" "info" demo demo_active
           (instance_of demo_args demo)).
  - discriminate.
  - vm_compute. reflexivity.
Defined.

(* ===================================================================== *)
(** ** What a run of client calls leaves unchanged *)
(* ===================================================================== *)

Lemma same_wiring_refl (s : Process) : same_wiring s s.
Proof. repeat split. Qed.

Lemma same_wiring_trans (s1 s2 s3 : Process) :
  same_wiring s1 s2 -> same_wiring s2 s3 -> same_wiring s1 s3.
Proof.
  intros (A1 & A2 & A3 & A4) (B1 & B2 & B3 & B4).
  repeat split; congruence.
Qed.

Lemma framed_ret {A} (a : A) : framed (ret a).
Proof. intros s. apply same_wiring_refl. Qed.

Lemma framed_raise {A} (e : Exc) : framed (@raise A e).
Proof. intros s. apply same_wiring_refl. Qed.

Lemma framed_bind {A B} (m : M A) (k : A -> M B) :
  framed m -> (forall a, framed (k a)) -> framed (bind m k).
Proof.
  intros Hm Hk s. unfold bind. specialize (Hm s).
  destruct (m s) as [s1 [e|a]]; cbn [fst] in *; [exact Hm|].
  eapply same_wiring_trans; [exact Hm|apply Hk].
Qed.

Lemma framed_get : framed get.
Proof. intros s. apply same_wiring_refl. Qed.

Lemma framed_TextIO_write (fd : nat) (chunk : string) : framed (TextIO_write fd chunk).
Proof. intros s. repeat split. Qed.

Lemma framed_os_write (name chunk : string) : framed (os.write name chunk).
Proof. intros s. repeat split. Qed.

Lemma framed_flush (st : Stream) : framed (Stream_flush st).
Proof. induction st; [apply framed_ret|exact IHst]. Qed.

Lemma framed_callHandlers (w : Stream -> string -> M unit) :
  (forall st chunk, framed (w st chunk)) ->
  forall hs lv line, framed (callHandlers w hs lv line).
Proof.
  intros Hw hs lv line. induction hs as [|h rest IH]; [apply framed_ret|].
  cbn [callHandlers]. apply framed_bind; [|intros _; exact IH].
  destruct (handler_level h <=? lv); [|apply framed_ret].
  destruct h; cbn [Handler_emit]; [apply framed_os_write|].
  apply framed_bind; [apply Hw|intros _; apply framed_flush].
Qed.

Lemma framed_Logger_log (w : Stream -> string -> M unit) :
  (forall st chunk, framed (w st chunk)) ->
  forall l sev msg, framed (Logger_log w l sev msg).
Proof.
  intros Hw l sev msg. unfold Logger_log.
  apply framed_bind; [apply framed_get|]. intros s.
  destruct (root_level s <=? logging.levelno sev); [|apply framed_ret].
  destruct (root_handlers s) as [|h rest].
  - destruct (logging.WARNING <=? logging.levelno sev); [apply Hw|apply framed_ret].
  - apply framed_callHandlers. exact Hw.
Qed.

Lemma framed_Stream_write (depth : nat) :
  forall st text, framed (Stream_write depth st text).
Proof.
  induction depth as [|d IH]; intros st text.
  - destruct st; [apply framed_TextIO_write|apply framed_raise].
  - destruct st as [fd|l inner]; [apply framed_TextIO_write|].
    cbn [Stream_write].
    destruct (Str.is_empty (Str.rstrip text)); [apply framed_ret|].
    apply framed_bind; [apply IH|]. intros _.
    apply framed_bind; [apply framed_flush|]. intros _.
    apply framed_Logger_log. exact IH.
Qed.

Lemma framed_shortcut (sev : logging.Severity) (depth : nat) (msg : string) :
  framed (shortcut sev depth msg).
Proof.
  assert (H : forall level, framed (log_lhc._log_func depth msg level)).
  { intros level. unfold log_lhc._log_func.
    apply framed_bind; [apply framed_get|]. intros s.
    destruct (_logger_instance s); [|apply framed_raise].
    repeat (match goal with |- framed (if ?b then _ else _) => destruct b end);
      apply framed_Logger_log; apply framed_Stream_write. }
  destruct sev; apply H.
Qed.

Lemma wired_frame (out err : Stream) (s s' : Process) :
  same_wiring s s' -> wired out err s -> wired out err s'.
Proof.
  intros (H1 & H2 & H3 & H4) [Hh Hi]. unfold wired.
  rewrite H1, H2, H3, H4. split; assumption.
Qed.

Lemma bind_run {A B} (m : M A) (k : A -> M B) (s s1 : Process) (a : A) :
  m s = (s1, inr a) -> bind m k s = k a s1.
Proof. unfold bind. intros ->. reflexivity. Qed.

(** Inversion of the monad's operations on a run that raised. *)
Lemma bind_inl {A B} (m : M A) (k : A -> M B) (s s' : Process) (e : Exc) :
  bind m k s = (s', inl e) ->
  m s = (s', inl e) \/ exists s1 a, m s = (s1, inr a) /\ k a s1 = (s', inl e).
Proof.
  unfold bind. destruct (m s) as [s1 [e1|a]]; intros H.
  - left. injection H as <- <-. reflexivity.
  - right. exists s1, a. split; [reflexivity|exact H].
Qed.

Lemma lift_inl {A} (r : Exc + A) (s s' : Process) (e : Exc) :
  lift r s = (s', inl e) -> s' = s.
Proof.
  destruct r as [e0|a]; unfold lift, raise, ret; intros H; [|discriminate].
  injection H as <- _. reflexivity.
Qed.

Lemma mkdir_inl (p : Path) (s s' : Process) (e : Exc) :
  os.mkdir p s = (s', inl e) -> s' = s.
Proof.
  unfold os.mkdir. intros H.
  apply bind_inl in H as [H|(s1 & a & Hm & H)]; [discriminate|].
  apply get_inr in Hm as [-> ->].
  apply bind_inl in H as [H|(s1 & a & Hm & H)]; [|discriminate].
  apply lift_inl in H. exact H.
Qed.

(** A constructor call that raises has not published anything and has
    left both [sys] slots alone; it may have left its file handler on the
    root logger. *)
Lemma construct_raises (a : Args) (s s' : Process) (e : Exc) :
  _logger_instance s = None ->
  construct a s = (s', inl e) ->
  _logger_instance s' = None /\
  sys_stdout s' = sys_stdout s /\
  sys_stderr s' = sys_stderr s /\
  (root_handlers s' = root_handlers s \/
   exists k fl, root_handlers s' = root_handlers s ++ [FileHandler k fl]).
Proof.
  intros Hnone H.
  unfold construct, log_lhc.LoggerLHC__init__ in H.
  apply bind_inl in H as [H|(s1 & s1' & Hm & H)]; [discriminate|].
  apply get_inr in Hm as [-> ->]. rewrite Hnone in H.
  apply bind_inl in H as [H|(s1 & u1 & Hm & H)].
  { apply mkdir_inl in H as ->. auto. }
  apply mkdir_inr in Hm as (f1 & _ & ->).
  apply bind_inl in H as [H|(s2 & u2 & Hm & H)]; [discriminate|].
  apply modify_inr in Hm as ->.
  apply bind_inl in H as [H|(s3 & u3 & Hm & H)].
  - unfold log_lhc._setup_handlers, log_lhc.addHandler in H.
    apply bind_inl in H as [H|(s4 & x4 & Hm & H)]; [discriminate|].
    apply get_inr in Hm as [-> ->].
    apply bind_inl in H as [H|(s5 & f2 & Hm & H)].
    { apply lift_inl in H as ->. destruct s; cbn in *; auto. }
    apply lift_inr in Hm as [_ ->].
    apply bind_inl in H as [H|(s6 & u6 & Hm & H)]; [discriminate|].
    apply modify_inr in Hm as ->.
    apply bind_inl in H as [H|(s7 & fl & Hm & H)].
    { apply lift_inl in H as ->. destruct s; cbn in *; auto. }
    apply lift_inr in Hm as [_ ->].
    apply bind_inl in H as [H|(s8 & u8 & Hm & H)]; [discriminate|].
    apply modify_inr in Hm as ->.
    apply bind_inl in H as [H|(s9 & x9 & Hm & H)]; [discriminate|].
    apply get_inr in Hm as [-> ->].
    apply bind_inl in H as [H|(s10 & cl & Hm & H)]; [|discriminate].
    apply lift_inl in H as ->. destruct s; cbn in *.
    repeat split; auto. right. eauto.
  - apply bind_inl in H as [H|(s4 & u4 & Hm' & H)].
    + unfold log_lhc._capture_prints in H.
      apply bind_inl in H as [H|(s5 & u5 & Hm' & H)]; discriminate.
    + apply bind_inl in H as [H|(s5 & u5 & Hm'' & H)]; discriminate.
Qed.

Lemma wired_construct (out err : Stream) (a : Args) (s : Process) :
  wired out err s -> wired out err (fst (construct a s)).
Proof.
  intros Hw. destruct (_logger_instance s) as [i|] eqn:Ei.
  - rewrite (init_guard a s i Ei). exact Hw.
  - destruct (construct a s) as [s' [e|o]] eqn:Hrun; cbn [fst].
    + destruct (construct_raises a s s' e Ei Hrun) as (H1 & H2 & H3 & H4).
      destruct Hw as [Hh Hi]. rewrite Ei in Hi. destruct Hi as [Ho He].
      unfold wired. rewrite H1, H2, H3. split; [|split; assumption].
      destruct H4 as [-> | (k & fl & ->)]; [exact Hh|].
      apply Forall_app. split; [exact Hh|]. repeat constructor.
    + destruct (init_success a s s' o Ei Hrun)
        as (f1 & f2 & fl & cl & _ & _ & _ & _ & _ & ->).
      destruct Hw as [Hh Hi]. rewrite Ei in Hi. destruct Hi as [Ho He].
      unfold wired. cbn [_logger_instance sys_stdout sys_stderr root_handlers].
      split.
      * apply Forall_app. split; [exact Hh|]. rewrite Ho. repeat constructor.
      * repeat split. intros E. apply List.app_eq_nil in E as [_ E]. discriminate.
Qed.

Lemma wired_call (out err : Stream) (depth : nat) (c : Call) (s : Process) :
  wired out err s -> wired out err (fst (call depth c s)).
Proof.
  intros Hw. destruct c as [a|sev msg|text|text|d t]; cbn [call].
  - unfold bind. pose proof (wired_construct out err a s Hw) as H.
    destruct (construct a s) as [s' [e|o]]; exact H.
  - eapply wired_frame; [apply framed_shortcut|exact Hw].
  - eapply wired_frame; [|exact Hw].
    apply (framed_bind get); [apply framed_get|]. intros s'. apply framed_Stream_write.
  - eapply wired_frame; [|exact Hw].
    apply (framed_bind get); [apply framed_get|]. intros s'. apply framed_Stream_write.
  - eapply wired_frame; [|exact Hw]. repeat split.
Qed.

Lemma wired_run (out err : Stream) (depth : nat) (calls : list Call) (s : Process) :
  wired out err s -> wired out err (run depth calls s).
Proof.
  revert s. induction calls as [|c rest IH]; intros s Hw; [exact Hw|].
  cbn [run]. apply IH. apply wired_call. exact Hw.
Qed.

(** With every stream handler on a plain stream, handing a record to the
    handlers never calls [StreamToLogger.write]: it goes through with no
    call of that method allowed, and the allowance makes no difference. *)
Lemma callHandlers_plain (fd : nat) (hs : list Handler) (lv : Z) (line : string) :
  Forall (console_ok (TextIO fd)) hs ->
  forall (d : nat) (s : Process),
    callHandlers (Stream_write d) hs lv line s =
      callHandlers (Stream_write 0) hs lv line s /\
    snd (callHandlers (Stream_write 0) hs lv line s) = inr tt.
Proof.
  induction 1 as [|h rest Hh Hrest IH]; intros d s; [split; reflexivity|].
  cbn [callHandlers].
  assert (Hstep : forall d',
    (if handler_level h <=? lv then Handler_emit (Stream_write d') h line else ret tt) s =
    (if handler_level h <=? lv then Handler_emit (Stream_write 0) h line else ret tt) s /\
    snd ((if handler_level h <=? lv then Handler_emit (Stream_write 0) h line
          else ret tt) s) = inr tt).
  { intros d'. destruct (handler_level h <=? lv); [|split; reflexivity].
    destruct h as [k l|st l]; [split; reflexivity|].
    cbn [console_ok] in Hh. subst st. cbn [Handler_emit].
    rewrite !Stream_write_TextIO. split; reflexivity. }
  unfold bind. destruct (Hstep d) as [E1 E2]. rewrite E1.
  destruct ((if handler_level h <=? lv then Handler_emit (Stream_write 0) h line
             else ret tt) s) as [s1 [e|u]]; [discriminate|].
  apply IH.
Qed.

Lemma Logger_log_plain (fd : nat) (err : Stream) (l : LoggerRef)
    (sev : logging.Severity) (msg : string) (s : Process) :
  wired (TextIO fd) err s ->
  _logger_instance s <> None ->
  forall d : nat,
    Logger_log (Stream_write d) l sev msg s = Logger_log (Stream_write 0) l sev msg s /\
    snd (Logger_log (Stream_write 0) l sev msg s) = inr tt.
Proof.
  intros [Hh Hi] Hsome d. unfold Logger_log, bind, get.
  destruct (root_level s <=? logging.levelno sev); [|split; reflexivity].
  destruct (_logger_instance s) as [i|]; [|congruence].
  destruct Hi as (_ & _ & Hne).
  destruct (root_handlers s) as [|h rest] eqn:E; [congruence|].
  apply (callHandlers_plain fd); exact Hh.
Qed.

(** C10.  Start from a process with no singleton, no handler on the root
    logger and a plain stream in [sys.stdout], and let the client make any
    run of calls (constructor calls that succeed, fail or are ignored,
    shortcut calls, writes to the two streams).  Whenever the singleton
    exists afterwards, every stream handler of the root logger sits on the
    stream that was in [sys.stdout] at the start, not on the shim that has
    replaced it; so a record emitted through the instance goes through with
    no call of [StreamToLogger.write] allowed at all, and a write to the
    intercepted [sys.stdout] goes through with the one call it is itself:
    the record it logs does not come back into the shim. *)
Theorem C10_logging_never_reenters_interceptor
    (s0 : Process) (fd : nat) (calls : list Call) (depth : nat) (inst : LoggerLHC) :
  _logger_instance s0 = None ->
  root_handlers s0 = [] ->
  sys_stdout s0 = TextIO fd ->
  _logger_instance (run depth calls s0) = Some inst ->
  let s := run depth calls s0 in
  (forall st lv, In (StreamHandler st lv) (root_handlers s) -> st = sys_stdout s0) /\
  sys_stdout s = StreamToLogger RootLogger sys___stdout__ /\
  (forall sev msg d,
     method sev d inst msg s = method sev 0 inst msg s /\
     snd (method sev 0 inst msg s) = inr tt) /\
  (forall text d,
     Stream_write (S d) (sys_stdout s) text s = Stream_write 1 (sys_stdout s) text s /\
     snd (Stream_write 1 (sys_stdout s) text s) = inr tt).
Proof.
  intros Hnone Hh Hout Hinst. cbv zeta.
  assert (Hw0 : wired (TextIO fd) (sys_stderr s0) s0).
  { unfold wired. rewrite Hh, Hnone, Hout. repeat split. constructor. }
  pose proof (wired_run _ _ depth calls s0 Hw0) as Hw.
  set (s := run depth calls s0) in *.
  assert (Hsome : _logger_instance s <> None) by congruence.
  pose proof Hw as [Hhs Hi]. rewrite Hinst in Hi. destruct Hi as (Hso & Hse & Hne).
  split.
  { intros st lv Hin. rewrite Hout.
    rewrite Forall_forall in Hhs. apply list_elem_of_In in Hin.
    exact (Hhs _ Hin). }
  split; [exact Hso|].
  split.
  { intros sev msg d. rewrite !method_log. unfold log_lhc.LoggerLHC_log.
    apply (Logger_log_plain fd (sys_stderr s0)); assumption. }
  intros text d. rewrite Hso. unfold sys___stdout__. cbn [Stream_write].
  destruct (Str.is_empty (Str.rstrip text)); [split; reflexivity|].
  rewrite !Stream_write_TextIO.
  set (chunk := Str.rstrip text +:+ Str.NL).
  set (s' := set_tty (<[1%nat := (tty s !!! 1%nat) ++ [chunk]]> (tty s)) s).
  assert (E1 : TextIO_write 1 chunk s = (s', inr tt)) by reflexivity.
  assert (E2 : Stream_flush (TextIO 1) s' = (s', inr tt)) by reflexivity.
  rewrite !(bind_run _ _ _ _ _ E1), !(bind_run _ _ _ _ _ E2).
  apply (Logger_log_plain fd (sys_stderr s0)).
  - apply (wired_frame _ _ s); [repeat split|exact Hw].
  - exact Hsome.
Qed.

Lemma C10_witness :
  let s := run 3 demo_calls demo in
  (forall st lv, In (StreamHandler st lv) (root_handlers s) -> st = sys_stdout demo) /\
  sys_stdout s = StreamToLogger RootLogger sys___stdout__ /\
  (forall sev msg d,
     method sev d (instance_of demo_args demo) msg s =
       method sev 0 (instance_of demo_args demo) msg s /\
     snd (method sev 0 (instance_of demo_args demo) msg s) = inr tt) /\
  (forall text d,
     Stream_write (S d) (sys_stdout s) text s = Stream_write 1 (sys_stdout s) text s /\
     snd (Stream_write 1 (sys_stdout s) text s) = inr tt).
Proof.
  apply (C10_logging_never_reenters_interceptor demo 1%nat demo_calls 3
           (instance_of demo_args demo)).
  - reflexivity.
  - reflexivity.
  - reflexivity.
  - vm_compute. reflexivity.
Defined.

(* ===================================================================== *)
(** ** Further properties: what a write to the shim depends on *)
(* ===================================================================== *)

Lemma append_cons (c : ascii) (r w : string) :
  String c r +:+ w = String c (r +:+ w).
Proof. reflexivity. Qed.

Lemma rstrip_app_space (s w : string) :
  Str.all Str.isspace w = true -> Str.rstrip (s +:+ w) = Str.rstrip s.
Proof.
  intros Hw. induction s as [|c r IH].
  - change (EmptyString +:+ w) with w. rewrite (rstrip_all_space w Hw). reflexivity.
  - rewrite append_cons. cbn [Str.rstrip]. rewrite IH. reflexivity.
Qed.

Lemma rstrip_idempotent (s : string) : Str.rstrip (Str.rstrip s) = Str.rstrip s.
Proof.
  induction s as [|c r IH]; [reflexivity|].
  cbn [Str.rstrip]. destruct (Str.rstrip r) as [|c' r'] eqn:E.
  - destruct (Str.isspace c) eqn:Ec; [reflexivity|].
    cbn [Str.rstrip]. rewrite Ec. reflexivity.
  - cbn [Str.rstrip] in *. rewrite IH. reflexivity.
Qed.

(** X1.  A write to a [StreamToLogger] depends on the text only up to
    trailing whitespace: the text with any run of whitespace and line ends
    added at its end, and the text already trimmed, have the same effect and
    the same outcome as the text itself, in every process and at every
    depth. *)
Theorem X1_trailing_whitespace_ignored
    (depth : nat) (l : LoggerRef) (inner : Stream) (text w : string) (s : Process) :
  Str.all Str.isspace w = true ->
  Stream_write depth (StreamToLogger l inner) (text +:+ w) s =
    Stream_write depth (StreamToLogger l inner) text s /\
  Stream_write depth (StreamToLogger l inner) (Str.rstrip text) s =
    Stream_write depth (StreamToLogger l inner) text s.
Proof.
  intros Hw. destruct depth as [|d]; [split; reflexivity|].
  cbn [Stream_write]. rewrite (rstrip_app_space text w Hw), rstrip_idempotent.
  split; reflexivity.
Qed.

Lemma X1_witness :
  Stream_write 1 (StreamToLogger RootLogger (TextIO 1))
    ("hello" +:+ (" " +:+ Str.NL)) demo_active =
    Stream_write 1 (StreamToLogger RootLogger (TextIO 1)) "hello" demo_active /\
  Stream_write 1 (StreamToLogger RootLogger (TextIO 1)) (Str.rstrip "hello") demo_active =
    Stream_write 1 (StreamToLogger RootLogger (TextIO 1)) "hello" demo_active.
Proof.
  apply (X1_trailing_whitespace_ignored 1 RootLogger (TextIO 1) "hello"
           (" " +:+ Str.NL) demo_active).
  reflexivity.
Defined.

(** X2.  When [sys.stdout] holds a [StreamToLogger], [print(text)] does
    what the single call [sys.stdout.write(text)] does: the line end that
    [print] writes afterwards is trimmed to nothing and discarded, so one
    printed line gives one echo and one record, and a [print] that raises
    does so in the first write. *)
Theorem X2_print_is_one_write
    (depth : nat) (text : string) (s : Process) (l : LoggerRef) (inner : Stream) :
  sys_stdout s = StreamToLogger l inner ->
  print depth text s = Stream_write depth (sys_stdout s) text s.
Proof.
  intros Hout. unfold print, bind, get.
  pose proof (framed_Stream_write depth (sys_stdout s) text s) as (_ & Hsame & _).
  destruct (Stream_write depth (sys_stdout s) text s) as [s' [e|u]] eqn:E;
    [reflexivity|].
  cbn [fst] in Hsame. rewrite Hsame, Hout.
  destruct depth as [|d].
  - rewrite Hout in E. cbn [Stream_write] in E. discriminate.
  - cbn [Stream_write]. destruct u. reflexivity.
Qed.

Lemma X2_witness :
  print 1 "hello" demo_active = Stream_write 1 (sys_stdout demo_active) "hello" demo_active.
Proof.
  apply (X2_print_is_one_write 1 "hello" demo_active RootLogger (TextIO 1)).
  reflexivity.
Defined.

(* ===================================================================== *)
(** ** Further properties: level strings *)
(* ===================================================================== *)

Lemma lower_char_upper (c : ascii) : Str.lower_char (Str.upper_char c) = Str.lower_char c.
Proof. destruct c as [[] [] [] [] [] [] [] []]; reflexivity. Qed.

Lemma lower_upper (s : string) : Str.lower (Str.upper s) = Str.lower s.
Proof.
  induction s as [|c r IH]; [reflexivity|].
  unfold Str.upper, Str.lower in *. cbn [Str.map].
  rewrite lower_char_upper, IH. reflexivity.
Qed.

(** X3.  [_log_func] reads its level without regard to case, and every
    level other than [debug], [warning] and [error] is logged through the
    instance's [info]: there is no error for an unknown level, and
    [critical] is logged at INFO. *)
Theorem X3_log_func_level_dispatch
    (depth : nat) (msg level : string) (s : Process) (inst : LoggerLHC) :
  _logger_instance s = Some inst ->
  log_lhc._log_func depth msg (Str.upper level) s = log_lhc._log_func depth msg level s /\
  (Str.lower level <> "debug" ->
   Str.lower level <> "warning" ->
   Str.lower level <> "error" ->
   log_lhc._log_func depth msg level s = log_lhc.LoggerLHC_info depth inst msg s).
Proof.
  intros Hi. unfold log_lhc._log_func, bind, get. rewrite Hi.
  rewrite lower_upper. split; [reflexivity|].
  intros Hd Hw He.
  apply String.eqb_neq in Hd, Hw, He. rewrite Hd, Hw, He. reflexivity.
Qed.

Lemma X3_witness :
  log_lhc._log_func 0 "boom" (Str.upper "Critical") demo_active =
    log_lhc._log_func 0 "boom" "Critical" demo_active /\
  log_lhc._log_func 0 "boom" "Critical" demo_active =
    log_lhc.LoggerLHC_info 0 (instance_of demo_args demo) "boom" demo_active.
Proof.
  destruct (X3_log_func_level_dispatch 0 "boom" "Critical" demo_active
              (instance_of demo_args demo)) as [Hcase Hinfo].
  - reflexivity.
  - split; [exact Hcase|].
    apply Hinfo; vm_compute; discriminate.
Defined.

(** The constructor depends on its level strings only through the levels
    they stand for. *)
Lemma construct_levels_ext (name : string) (root_arg : option PathArg)
    (fl1 cl1 fl2 cl2 : string) (s : Process) :
  logging.level_arg fl1 logging.DEBUG = logging.level_arg fl2 logging.DEBUG ->
  logging.level_arg cl1 logging.INFO = logging.level_arg cl2 logging.INFO ->
  construct (mkArgs name root_arg fl1 cl1) s = construct (mkArgs name root_arg fl2 cl2) s.
Proof.
  intros Hf Hc. unfold construct, log_lhc.LoggerLHC__init__, log_lhc._setup_handlers.
  cbn [arg_app_name arg_log_root arg_file_level arg_console_level].
  rewrite Hf, Hc. reflexivity.
Qed.

(** X4.  The constructor reads both level strings without regard to case:
    upper-casing or lower-casing them changes neither the outcome nor the
    process the call leaves. *)
Theorem X4_constructor_levels_ignore_case
    (name : string) (root_arg : option PathArg) (fl cl : string) (s : Process) :
  construct (mkArgs name root_arg (Str.upper fl) (Str.upper cl)) s =
    construct (mkArgs name root_arg fl cl) s /\
  construct (mkArgs name root_arg (Str.lower fl) (Str.lower cl)) s =
    construct (mkArgs name root_arg fl cl) s.
Proof.
  split; apply construct_levels_ext;
    first [apply (proj2 (level_arg_case_insensitive _ _))
          |apply (proj1 (level_arg_case_insensitive _ _))].
Qed.

(** X5.  Level strings whose upper-case form is not a name the [logging]
    module binds are taken as the defaults: the constructor behaves exactly
    as with file level [debug] and console level [info]. *)
Theorem X5_unbound_levels_are_the_defaults
    (name : string) (root_arg : option PathArg) (fl cl : string) (s : Process) :
  logging.module_attr (Str.upper fl) = None ->
  logging.module_attr (Str.upper cl) = None ->
  construct (mkArgs name root_arg fl cl) s =
    construct (mkArgs name root_arg "debug" "info") s.
Proof.
  intros Hf Hc. apply construct_levels_ext.
  - rewrite (level_arg_fallback fl _ Hf). reflexivity.
  - rewrite (level_arg_fallback cl _ Hc). reflexivity.
Qed.

Lemma X5_witness :
  construct (mkArgs "svc" None "verbose" "Quiet") demo =
    construct (mkArgs "svc" None "debug" "info") demo.
Proof.
  apply (X5_unbound_levels_are_the_defaults "svc" None "verbose" "Quiet" demo).
  - reflexivity.
  - reflexivity.
Defined.

(* ===================================================================== *)
(** ** Further properties: where the log file is *)
(* ===================================================================== *)

Lemma date_folder_layout (a : Args) (s0 : Process) :
  date_folder (instance_of a s0) =
  mkPath (root (log_lhc.root_or_cwd (arg_log_root a) (cwd s0)))
         (parts (log_lhc.root_or_cwd (arg_log_root a) (cwd s0)) ++
          ["logs"; datetime.isoformat (today s0)]).
Proof.
  unfold instance_of. cbn [date_folder].
  rewrite of_str_isoformat.
  change (pathlib.of_str "logs") with (mkPath Rel ["logs"]).
  rewrite !join_rel. cbn [root parts]. rewrite <- List.app_assoc. reflexivity.
Qed.

(** The layout a successful constructor call leaves, for any root
    argument. *)
Lemma construct_layout (a : Args) (s0 s1 : Process) (inst : LoggerLHC) :
  construct a s0 = (s1, inr (Some inst)) ->
  inst = instance_of a s0 /\
  fs s1 !! os.key (cwd s0) (date_folder inst) = Some Dir /\
  (exists c, fs s1 !! os.key (cwd s0) (log_file inst) = Some (File c)) /\
  (exists fl, In (FileHandler (os.key (cwd s0) (log_file inst)) fl) (root_handlers s1)).
Proof.
  intros Hrun.
  pose proof (construct_built _ s0 s1 inst Hrun) as Hnone.
  destruct (init_success _ s0 s1 _ Hnone Hrun)
    as (f1 & f2 & fl & cl & Hmk & Hop & _ & _ & Ho & Hs1).
  injection Ho as Ho. subst inst.
  split; [reflexivity|].
  split.
  { rewrite Hs1. cbn [fs]. unfold os.key.
    eapply open_append_keeps; [exact Hop|].
    eapply mkdir_chain_dirs; [exact Hmk|].
    apply chain_self. apply join_parts_nonempty. rewrite date_folder_layout.
    cbn [parts]. intros E. apply List.app_eq_nil in E as [_ E]. discriminate. }
  split.
  { destruct (open_append_file _ _ _ Hop) as (c & Hc & _).
    exists c. rewrite Hs1. exact Hc. }
  exists fl. rewrite Hs1. cbn [root_handlers].
  apply List.in_or_app. right. left. reflexivity.
Qed.

(** X6.  Without a root argument, and with the empty string as root, the
    log goes under the working directory: the date folder is the working
    directory, then [logs], then the date of the call, and for a name
    without a slash the log file is [name.log] in it.  The folder exists
    afterwards and the file exists as a regular file. *)
Theorem X6_default_root_is_cwd
    (name flv clv : string) (root_arg : option PathArg)
    (s0 s1 : Process) (inst : LoggerLHC) :
  root_arg = None \/ root_arg = Some (ArgStr "") ->
  no_slash name = true ->
  construct (mkArgs name root_arg flv clv) s0 = (s1, inr (Some inst)) ->
  date_folder inst =
    mkPath (root (cwd s0))
           (parts (cwd s0) ++ ["logs"; datetime.isoformat (today s0)]) /\
  log_file inst =
    mkPath (root (cwd s0))
           (parts (cwd s0) ++ ["logs"; datetime.isoformat (today s0); name +:+ ".log"]) /\
  fs s1 !! os.key (cwd s0) (date_folder inst) = Some Dir /\
  (exists c, fs s1 !! os.key (cwd s0) (log_file inst) = Some (File c)).
Proof.
  intros Hroot Hname Hrun.
  destruct (construct_layout _ s0 s1 inst Hrun) as (Hi & Hdir & Hfile & _).
  assert (Hbase : log_lhc.root_or_cwd root_arg (cwd s0) = cwd s0)
    by (destruct Hroot as [-> | ->]; reflexivity).
  assert (Hdf : date_folder inst =
                mkPath (root (cwd s0))
                  (parts (cwd s0) ++ ["logs"; datetime.isoformat (today s0)])).
  { rewrite Hi, date_folder_layout. cbn [arg_log_root]. rewrite Hbase. reflexivity. }
  split; [exact Hdf|].
  split; [|split; assumption].
  rewrite Hi, log_file_date_folder. rewrite <- Hi, Hdf. cbn [arg_app_name].
  rewrite (of_str_plain _ (log_name_no_slash name Hname) (log_name_keep name)).
  rewrite join_rel. cbn [root parts]. rewrite <- List.app_assoc. reflexivity.
Qed.

Lemma X6_witness :
  date_folder (instance_of (mkArgs "svc" (Some (ArgStr "")) "debug" "info") demo) =
    mkPath (root (cwd demo))
           (parts (cwd demo) ++ ["logs"; datetime.isoformat (today demo)]) /\
  log_file (instance_of (mkArgs "svc" (Some (ArgStr "")) "debug" "info") demo) =
    mkPath (root (cwd demo))
           (parts (cwd demo) ++ ["logs"; datetime.isoformat (today demo); "svc" +:+ ".log"]) /\
  fs (fst (construct (mkArgs "svc" (Some (ArgStr "")) "debug" "info") demo))
    !! os.key (cwd demo)
         (date_folder (instance_of (mkArgs "svc" (Some (ArgStr "")) "debug" "info") demo)) =
    Some Dir /\
  (exists c,
     fs (fst (construct (mkArgs "svc" (Some (ArgStr "")) "debug" "info") demo))
       !! os.key (cwd demo)
            (log_file (instance_of (mkArgs "svc" (Some (ArgStr "")) "debug" "info") demo)) =
     Some (File c)).
Proof.
  apply (X6_default_root_is_cwd "svc" "debug" "info" (Some (ArgStr "")) demo
           (fst (construct (mkArgs "svc" (Some (ArgStr "")) "debug" "info") demo))
           (instance_of (mkArgs "svc" (Some (ArgStr "")) "debug" "info") demo)).
  - right. reflexivity.
  - reflexivity.
  - vm_compute. reflexivity.
Defined.

Lemma root_of_slash (r : string) : pathlib.root_of (String pathlib.slash r) <> Rel.
Proof.
  unfold pathlib.root_of. rewrite Ascii.eqb_refl.
  destruct r as [|c2 [|c3 r]]; repeat destruct (Ascii.eqb _ _); discriminate.
Qed.

Lemma join_anchored (p q : Path) : root q <> Rel -> pathlib.join p q = q.
Proof. unfold pathlib.join. destruct (root q); [congruence|reflexivity|reflexivity]. Qed.

(** X7.  An application name that starts with a slash takes the log file
    out of the log root: the file is [Path(name + ".log")] itself, whatever
    the root argument, the working directory and the date are.  The date
    folder is created all the same. *)
Theorem X7_absolute_name_leaves_the_root
    (rest flv clv : string) (root_arg : option PathArg)
    (s0 s1 : Process) (inst : LoggerLHC) :
  construct (mkArgs (String pathlib.slash rest) root_arg flv clv) s0 =
    (s1, inr (Some inst)) ->
  log_file inst = pathlib.of_str (String pathlib.slash rest +:+ ".log") /\
  root (log_file inst) <> Rel /\
  (exists fl,
     In (FileHandler
           (pathlib.to_str (pathlib.of_str (String pathlib.slash rest +:+ ".log"))) fl)
        (root_handlers s1)) /\
  (exists c,
     fs s1 !! pathlib.to_str (pathlib.of_str (String pathlib.slash rest +:+ ".log")) =
     Some (File c)) /\
  fs s1 !! os.key (cwd s0) (date_folder inst) = Some Dir.
Proof.
  intros Hrun.
  destruct (construct_layout _ s0 s1 inst Hrun) as (Hi & Hdir & Hfile & Hh).
  assert (Hanch : root (pathlib.of_str (String pathlib.slash rest +:+ ".log")) <> Rel).
  { rewrite append_cons. apply root_of_slash. }
  assert (Hlf : log_file inst = pathlib.of_str (String pathlib.slash rest +:+ ".log")).
  { rewrite Hi, log_file_date_folder. cbn [arg_app_name].
    apply join_anchored. exact Hanch. }
  assert (Hkey : os.key (cwd s0) (log_file inst) =
                 pathlib.to_str (pathlib.of_str (String pathlib.slash rest +:+ ".log"))).
  { unfold os.key, os.resolve. rewrite Hlf, (join_anchored _ _ Hanch). reflexivity. }
  rewrite Hkey in Hfile, Hh.
  split; [exact Hlf|].
  split; [rewrite Hlf; exact Hanch|].
  split; [exact Hh|]. split; [exact Hfile|exact Hdir].
Qed.

Lemma X7_witness :
  log_file (instance_of (mkArgs "/app" (Some (ArgStr "/tmp/x")) "debug" "info") demo) =
    pathlib.of_str ("/app" +:+ ".log") /\
  root (log_file (instance_of (mkArgs "/app" (Some (ArgStr "/tmp/x")) "debug" "info") demo))
    <> Rel /\
  (exists fl,
     In (FileHandler (pathlib.to_str (pathlib.of_str ("/app" +:+ ".log"))) fl)
        (root_handlers
           (fst (construct (mkArgs "/app" (Some (ArgStr "/tmp/x")) "debug" "info") demo)))) /\
  (exists c,
     fs (fst (construct (mkArgs "/app" (Some (ArgStr "/tmp/x")) "debug" "info") demo))
       !! pathlib.to_str (pathlib.of_str ("/app" +:+ ".log")) = Some (File c)) /\
  fs (fst (construct (mkArgs "/app" (Some (ArgStr "/tmp/x")) "debug" "info") demo))
    !! os.key (cwd demo)
         (date_folder
            (instance_of (mkArgs "/app" (Some (ArgStr "/tmp/x")) "debug" "info") demo)) =
    Some Dir.
Proof.
  apply (X7_absolute_name_leaves_the_root "app" "debug" "info" (Some (ArgStr "/tmp/x"))
           demo
           (fst (construct (mkArgs "/app" (Some (ArgStr "/tmp/x")) "debug" "info") demo))
           (instance_of (mkArgs "/app" (Some (ArgStr "/tmp/x")) "debug" "info") demo)).
  vm_compute. reflexivity.
Defined.

(* ===================================================================== *)
(** ** Further properties: what a constructor call leaves behind *)
(* ===================================================================== *)

(** The four places where [__init__] can raise, with the process each one
    leaves: in [mkdir], in the opening of the log file, at the file level,
    at the console level. *)
Lemma construct_raises_state (a : Args) (s s' : Process) (e : Exc) :
  _logger_instance s = None ->
  construct a s = (s', inl e) ->
  s' = s \/
  exists f1,
    os.mkdir_chain
      (pathlib.chain (os.resolve (cwd s) (date_folder (instance_of a s)))) (fs s) =
      inr f1 /\
    (s' = set_root_level logging.DEBUG (set_fs f1 s) \/
     exists f2,
       os.open_append (os.resolve (cwd s) (log_file (instance_of a s))) f1 = inr f2 /\
       (s' = set_fs f2 (set_root_level logging.DEBUG (set_fs f1 s)) \/
        exists fl,
          logging.level_arg (arg_file_level a) logging.DEBUG = inr fl /\
          logging.level_arg (arg_console_level a) logging.INFO = inl e /\
          s' = set_root_handlers
                 (root_handlers s ++
                  [FileHandler (os.key (cwd s) (log_file (instance_of a s))) fl])
                 (set_fs f2 (set_root_level logging.DEBUG (set_fs f1 s))))).
Proof.
  intros Hnone H.
  unfold construct, log_lhc.LoggerLHC__init__ in H.
  apply bind_inl in H as [H|(s1 & s1' & Hm & H)]; [discriminate|].
  apply get_inr in Hm as [-> ->]. rewrite Hnone in H.
  apply bind_inl in H as [H|(s1 & u1 & Hm & H)].
  { apply mkdir_inl in H as ->. left. reflexivity. }
  apply mkdir_inr in Hm as (f1 & Hmk & ->).
  right. exists f1. split; [exact Hmk|].
  apply bind_inl in H as [H|(s2 & u2 & Hm & H)]; [discriminate|].
  apply modify_inr in Hm as ->.
  apply bind_inl in H as [H|(s3 & u3 & Hm & H)].
  - unfold log_lhc._setup_handlers, log_lhc.addHandler in H.
    apply bind_inl in H as [H|(s4 & x4 & Hm & H)]; [discriminate|].
    apply get_inr in Hm as [-> ->].
    apply bind_inl in H as [H|(s5 & f2 & Hm & H)].
    { apply lift_inl in H as ->. left. reflexivity. }
    apply lift_inr in Hm as [Hop ->].
    right. exists f2. split; [exact Hop|].
    apply bind_inl in H as [H|(s6 & u6 & Hm & H)]; [discriminate|].
    apply modify_inr in Hm as ->.
    apply bind_inl in H as [H|(s7 & fl & Hm & H)].
    { apply lift_inl in H as ->. left. reflexivity. }
    apply lift_inr in Hm as [Hfl ->].
    apply bind_inl in H as [H|(s8 & u8 & Hm & H)]; [discriminate|].
    apply modify_inr in Hm as ->.
    apply bind_inl in H as [H|(s9 & x9 & Hm & H)]; [discriminate|].
    apply get_inr in Hm as [-> ->].
    apply bind_inl in H as [H|(s10 & cl & Hm & H)]; [|discriminate].
    right. exists fl. split; [exact Hfl|].
    destruct (logging.level_arg (arg_console_level a) logging.INFO) as [e'|cl] eqn:Hcl;
      [|discriminate].
    unfold lift, raise in H. injection H as <- <-.
    split; reflexivity.
  - apply bind_inl in H as [H|(s4 & u4 & Hm' & H)].
    + unfold log_lhc._capture_prints in H.
      apply bind_inl in H as [H|(s5 & u5 & Hm' & H)]; discriminate.
    + apply bind_inl in H as [H|(s5 & u5 & Hm'' & H)]; discriminate.
Qed.

(** X8.  A constructor call, whether it is ignored, succeeds or raises,
    removes and alters nothing that exists in the file system (an existing
    log file keeps what it holds, since it is opened for append) and writes
    nothing to any stream. *)
Theorem X8_constructor_keeps_files_and_streams
    (a : Args) (s : Process) (k : string) (n : Node) :
  fs s !! k = Some n ->
  fs (fst (construct a s)) !! k = Some n /\
  tty (fst (construct a s)) = tty s.
Proof.
  intros Hk. destruct (_logger_instance s) as [i|] eqn:Ei.
  { rewrite (init_guard a s i Ei). split; [exact Hk|reflexivity]. }
  destruct (construct a s) as [s' [e|o]] eqn:Hrun; cbn [fst].
  - destruct (construct_raises_state a s s' e Ei Hrun)
      as [-> | (f1 & Hmk & [-> | (f2 & Hop & [-> | (fl & _ & _ & ->)])])].
    + split; [exact Hk|reflexivity].
    + split; [|reflexivity]. cbn [fs set_root_level set_fs].
      eapply mkdir_chain_keeps; eauto.
    + split; [|reflexivity]. cbn [fs set_root_level set_fs].
      eapply open_append_keeps; [exact Hop|]. eapply mkdir_chain_keeps; eauto.
    + split; [|reflexivity]. cbn [fs set_root_level set_fs set_root_handlers].
      eapply open_append_keeps; [exact Hop|]. eapply mkdir_chain_keeps; eauto.
  - destruct (init_success a s s' o Ei Hrun)
      as (f1 & f2 & fl & cl & Hmk & Hop & _ & _ & _ & ->).
    cbn [fs tty]. split; [|reflexivity].
    eapply open_append_keeps; [exact Hop|]. eapply mkdir_chain_keeps; eauto.
Qed.

Lemma X8_witness :
  fs (fst (construct demo_args demo_second_run)) !! "/tmp/x/logs/2026-11-03/svc.log" =
    Some (File ["2026-11-03 10:00:00 [INFO] [root] hello" +:+ Str.NL]) /\
  tty (fst (construct demo_args demo_second_run)) = tty demo_second_run.
Proof.
  apply (X8_constructor_keeps_files_and_streams demo_args demo_second_run
           "/tmp/x/logs/2026-11-03/svc.log"
           (File ["2026-11-03 10:00:00 [INFO] [root] hello" +:+ Str.NL])).
  vm_compute. reflexivity.
Defined.

(** X9.  A constructor call that raises publishes no singleton, leaves
    [sys.stdout] and [sys.stderr] as they were and adds no stream handler
    to the root logger; the shortcut methods go on raising the
    initialization-order error. *)
Theorem X9_failed_constructor_publishes_nothing
    (a : Args) (s s' : Process) (e : Exc) :
  _logger_instance s = None ->
  construct a s = (s', inl e) ->
  _logger_instance s' = None /\
  sys_stdout s' = sys_stdout s /\
  sys_stderr s' = sys_stderr s /\
  (forall st lv, In (StreamHandler st lv) (root_handlers s') ->
                 In (StreamHandler st lv) (root_handlers s)) /\
  (forall sev depth msg,
     shortcut sev depth msg s' = (s', inl (RuntimeError log_lhc.not_initialized))).
Proof.
  intros Hnone Hrun.
  destruct (construct_raises a s s' e Hnone Hrun) as (H1 & H2 & H3 & H4).
  split; [exact H1|]. split; [exact H2|]. split; [exact H3|].
  split.
  - intros st lv Hin. destruct H4 as [H4 | (k & fl & H4)]; rewrite H4 in Hin;
      [exact Hin|].
    apply List.in_app_or in Hin as [Hin|[Hin|[]]]; [exact Hin|discriminate].
  - intros sev depth msg. apply shortcut_uninitialized. exact H1.
Qed.

Lemma X9_witness :
  _logger_instance (fst (construct demo_bad_console demo)) = None /\
  sys_stdout (fst (construct demo_bad_console demo)) = sys_stdout demo /\
  sys_stderr (fst (construct demo_bad_console demo)) = sys_stderr demo /\
  (forall st lv,
     In (StreamHandler st lv) (root_handlers (fst (construct demo_bad_console demo))) ->
     In (StreamHandler st lv) (root_handlers demo)) /\
  (forall sev depth msg,
     shortcut sev depth msg (fst (construct demo_bad_console demo)) =
       (fst (construct demo_bad_console demo),
        inl (RuntimeError log_lhc.not_initialized))).
Proof.
  apply (X9_failed_constructor_publishes_nothing demo_bad_console demo
           (fst (construct demo_bad_console demo)) TypeError).
  - reflexivity.
  - vm_compute. reflexivity.
Defined.

(* ===================================================================== *)
(** ** Further properties: records over time *)
(* ===================================================================== *)

(** X10.  Two records emitted one after the other through the instance are
    appended in that order, after what the file held and after what the
    console stream had received; each sink takes the ones that reach its
    threshold and loses none. *)
Theorem X10_records_append_in_order
    (a : Args) (s0 s1 : Process) (inst : LoggerLHC) (fd : nat)
    (sev1 sev2 : logging.Severity) (msg1 msg2 : string) (depth : nat) :
  _logger_instance s0 = None ->
  root_handlers s0 = [] ->
  sys_stdout s0 = TextIO fd ->
  construct a s0 = (s1, inr (Some inst)) ->
  exists (fl cl : Z) (c : list string),
    logging.level_arg (arg_file_level a) logging.DEBUG = inr fl /\
    logging.level_arg (arg_console_level a) logging.INFO = inr cl /\
    fs s1 !! os.key (cwd s0) (log_file inst) = Some (File c) /\
    let l1 := fmt (asctime s1) (logging.levelname sev1) (logger_name (logger inst)) msg1
                +:+ Str.NL in
    let l2 := fmt (asctime s1) (logging.levelname sev2) (logger_name (logger inst)) msg2
                +:+ Str.NL in
    let s2 := fst (method sev1 depth inst msg1 s1) in
    let s3 := fst (method sev2 depth inst msg2 s2) in
    fs s3 !! os.key (cwd s0) (log_file inst) =
      Some (File (c ++ (if fl <=? logging.levelno sev1 then [l1] else []) ++
                       (if fl <=? logging.levelno sev2 then [l2] else []))) /\
    tty s3 !!! fd =
      (tty s1 !!! fd) ++ (if cl <=? logging.levelno sev1 then [l1] else []) ++
                         (if cl <=? logging.levelno sev2 then [l2] else []).
Proof.
  intros Hnone Hh Hout Hrun.
  destruct (init_fresh a s0 s1 _ Hnone Hh Hrun)
    as (f1 & f2 & fl & cl & _ & Hop & Hfl & Hcl & Ho & Hs1).
  injection Ho as Ho. rewrite <- Ho in *. clear Ho.
  destruct (open_append_file _ _ _ Hop) as (c & Hc & _).
  rewrite Hout in Hs1. subst s1.
  exists fl, cl, c.
  split; [exact Hfl|]. split; [exact Hcl|]. split; [exact Hc|].
  cbv zeta. rewrite !method_log. unfold log_lhc.LoggerLHC_log.
  rewrite log_active. cbn [fst]. cbv zeta. rewrite log_active. cbn [fst].
  unfold active. cbn [fs tty asctime].
  split.
  - rewrite List.app_assoc. apply emit_fs_lookup. apply emit_fs_lookup. exact Hc.
  - rewrite List.app_assoc, !emit_tty_lookup. reflexivity.
Qed.

Lemma X10_witness :
  exists (fl cl : Z) (c : list string),
    logging.level_arg (arg_file_level demo_args) logging.DEBUG = inr fl /\
    logging.level_arg (arg_console_level demo_args) logging.INFO = inr cl /\
    fs demo_active !! os.key (cwd demo) (log_file (instance_of demo_args demo)) =
      Some (File c) /\
    let l1 := fmt (asctime demo_active) (logging.levelname logging.SevError)
                (logger_name (logger (instance_of demo_args demo))) "boom" +:+ Str.NL in
    let l2 := fmt (asctime demo_active) (logging.levelname logging.SevDebug)
                (logger_name (logger (instance_of demo_args demo))) "trace" +:+ Str.NL in
    let s2 := fst (method logging.SevError 0 (instance_of demo_args demo) "boom"
                     demo_active) in
    let s3 := fst (method logging.SevDebug 0 (instance_of demo_args demo) "trace" s2) in
    fs s3 !! os.key (cwd demo) (log_file (instance_of demo_args demo)) =
      Some (File (c ++ (if fl <=? logging.levelno logging.SevError then [l1] else []) ++
                       (if fl <=? logging.levelno logging.SevDebug then [l2] else []))) /\
    tty s3 !!! 1%nat =
      (tty demo_active !!! 1%nat) ++
      (if cl <=? logging.levelno logging.SevError then [l1] else []) ++
      (if cl <=? logging.levelno logging.SevDebug then [l2] else []).
Proof.
  apply (X10_records_append_in_order demo_args demo demo_active
           (instance_of demo_args demo) 1%nat logging.SevError logging.SevDebug
           "boom" "trace" 0).
  - reflexivity.
  - reflexivity.
  - reflexivity.
  - vm_compute. reflexivity.
Defined.

(** X11.  The log file is chosen once, by the date of the constructor
    call.  When the clock moves on, to another day as well, a later
    constructor call is still ignored and records still go to the file in
    the folder of the first day; they carry the time at which they are
    emitted. *)
Theorem X11_no_rotation_after_construction
    (a : Args) (s0 s1 : Process) (inst : LoggerLHC) (fd : nat)
    (d' : Date) (t' : string) (sev : logging.Severity) (msg : string) (depth : nat) :
  _logger_instance s0 = None ->
  root_handlers s0 = [] ->
  sys_stdout s0 = TextIO fd ->
  construct a s0 = (s1, inr (Some inst)) ->
  exists (fl : Z) (c : list string),
    logging.level_arg (arg_file_level a) logging.DEBUG = inr fl /\
    fs s1 !! os.key (cwd s0) (log_file inst) = Some (File c) /\
    date_folder inst =
      mkPath (root (log_lhc.root_or_cwd (arg_log_root a) (cwd s0)))
             (parts (log_lhc.root_or_cwd (arg_log_root a) (cwd s0)) ++
              ["logs"; datetime.isoformat (today s0)]) /\
    let s2 := set_clock d' t' s1 in
    construct a s2 = (s2, inr None) /\
    fs (fst (method sev depth inst msg s2)) !! os.key (cwd s0) (log_file inst) =
      Some (File (c ++ if fl <=? logging.levelno sev
                       then [fmt t' (logging.levelname sev) (logger_name (logger inst)) msg
                               +:+ Str.NL]
                       else [])).
Proof.
  intros Hnone Hh Hout Hrun.
  destruct (init_fresh a s0 s1 _ Hnone Hh Hrun)
    as (f1 & f2 & fl & cl & _ & Hop & Hfl & Hcl & Ho & Hs1).
  injection Ho as Ho. subst inst.
  destruct (open_append_file _ _ _ Hop) as (c & Hc & _).
  rewrite Hout in Hs1. subst s1.
  exists fl, c.
  split; [exact Hfl|]. split; [exact Hc|].
  split; [apply date_folder_layout|].
  cbv zeta. split.
  - apply (init_guard a _ (instance_of a s0)). reflexivity.
  - rewrite method_log. unfold log_lhc.LoggerLHC_log.
    change (set_clock d' t' (active (instance_of a s0)
              (os.key (cwd s0) (log_file (instance_of a s0))) fl cl (TextIO fd)
              (tty s0) f2 (cwd s0) (today s0) (asctime s0)))
      with (active (instance_of a s0)
              (os.key (cwd s0) (log_file (instance_of a s0))) fl cl (TextIO fd)
              (tty s0) f2 (cwd s0) d' t').
    rewrite log_active. cbn [fst]. unfold active. cbn [fs].
    apply emit_fs_lookup. exact Hc.
Qed.

Lemma X11_witness :
  exists (fl : Z) (c : list string),
    logging.level_arg (arg_file_level demo_args) logging.DEBUG = inr fl /\
    fs demo_active !! os.key (cwd demo) (log_file (instance_of demo_args demo)) =
      Some (File c) /\
    date_folder (instance_of demo_args demo) =
      mkPath (root (log_lhc.root_or_cwd (arg_log_root demo_args) (cwd demo)))
             (parts (log_lhc.root_or_cwd (arg_log_root demo_args) (cwd demo)) ++
              ["logs"; datetime.isoformat (today demo)]) /\
    let s2 := set_clock (mkDate 2026 11 4) "2026-11-04 00:00:01" demo_active in
    construct demo_args s2 = (s2, inr None) /\
    fs (fst (method logging.SevInfo 0 (instance_of demo_args demo) "next day" s2))
      !! os.key (cwd demo) (log_file (instance_of demo_args demo)) =
      Some (File (c ++ if fl <=? logging.levelno logging.SevInfo
                       then [fmt "2026-11-04 00:00:01" (logging.levelname logging.SevInfo)
                               (logger_name (logger (instance_of demo_args demo)))
                               "next day" +:+ Str.NL]
                       else [])).
Proof.
  apply (X11_no_rotation_after_construction demo_args demo demo_active
           (instance_of demo_args demo) 1%nat (mkDate 2026 11 4) "2026-11-04 00:00:01"
           logging.SevInfo "next day" 0).
  - reflexivity.
  - reflexivity.
  - reflexivity.
  - vm_compute. reflexivity.
Defined.

Lemma call_same_wiring (depth : nat) (c : Call) (s : Process) (i : LoggerLHC) :
  _logger_instance s = Some i -> same_wiring s (fst (call depth c s)).
Proof.
  intros Hi. destruct c as [a|sev msg|text|text|d t]; cbn [call].
  - unfold bind. rewrite (init_guard a s i Hi). apply same_wiring_refl.
  - apply framed_shortcut.
  - apply (framed_bind get); [apply framed_get|]. intros s'. apply framed_Stream_write.
  - apply (framed_bind get); [apply framed_get|]. intros s'. apply framed_Stream_write.
  - repeat split.
Qed.

(** X12.  Once the singleton exists, no run of client calls (constructor
    calls, shortcut calls, writes to either stream, whether they return or
    raise) replaces or removes it, changes a [sys] slot, or adds or removes a
    handler of the root logger. *)
Theorem X12_singleton_is_permanent
    (depth : nat) (calls : list Call) (s : Process) (inst : LoggerLHC) :
  _logger_instance s = Some inst ->
  _logger_instance (run depth calls s) = Some inst /\
  sys_stdout (run depth calls s) = sys_stdout s /\
  sys_stderr (run depth calls s) = sys_stderr s /\
  root_handlers (run depth calls s) = root_handlers s.
Proof.
  revert s. induction calls as [|c rest IH]; intros s Hi; [repeat split; exact Hi|].
  cbn [run].
  destruct (call_same_wiring depth c s inst Hi) as (H1 & H2 & H3 & H4).
  destruct (IH (fst (call depth c s))) as (I1 & I2 & I3 & I4); [congruence|].
  repeat split; congruence.
Qed.

Lemma X12_witness :
  _logger_instance (run 2 demo_calls demo_active) = Some (instance_of demo_args demo) /\
  sys_stdout (run 2 demo_calls demo_active) = sys_stdout demo_active /\
  sys_stderr (run 2 demo_calls demo_active) = sys_stderr demo_active /\
  root_handlers (run 2 demo_calls demo_active) = root_handlers demo_active.
Proof.
  apply (X12_singleton_is_permanent 2 demo_calls demo_active (instance_of demo_args demo)).
  reflexivity.
Defined.



(* ===================================================================== *)
(** ** Further properties: a constructor call after one that raised *)
(* ===================================================================== *)

Lemma instance_paths_ext (a1 a2 : Args) (s s' : Process) :
  arg_app_name a2 = arg_app_name a1 ->
  arg_log_root a2 = arg_log_root a1 ->
  cwd s' = cwd s ->
  today s' = today s ->
  log_file (instance_of a2 s') = log_file (instance_of a1 s) /\
  logger (instance_of a2 s') = logger (instance_of a1 s).
Proof.
  intros Hn Hr Hc Ht. unfold instance_of. cbn [log_file logger].
  rewrite Hn, Hr, Hc, Ht. split; reflexivity.
Qed.

(** A record logged while the root logger has two file handlers on one file
    and a console handler on a plain stream. *)
Lemma log_two_file_handlers (depth : nat) (l : LoggerRef) (sev : logging.Severity)
    (msg : string) (i : option LoggerLHC) (so se : Stream) (k : string)
    (fl1 fl2 cl : Z) (fd : nat) t f wd d tm :
  fs (fst (Logger_log (Stream_write depth) l sev msg
             (mkProcess i so se logging.DEBUG
                [FileHandler k fl1; FileHandler k fl2; StreamHandler (TextIO fd) cl]
                t f wd d tm))) =
  (let line := fmt tm (logging.levelname sev) (logger_name l) msg +:+ Str.NL in
   emit_fs (fl2 <=? logging.levelno sev) k line
     (emit_fs (fl1 <=? logging.levelno sev) k line f)).
Proof.
  unfold Logger_log, bind, get. cbn [root_level root_handlers asctime].
  rewrite root_passes.
  cbn [callHandlers Handler_emit handler_level].
  rewrite Stream_write_TextIO. unfold emit_fs.
  destruct (fl1 <=? logging.levelno sev), (fl2 <=? logging.levelno sev),
    (cl <=? logging.levelno sev); reflexivity.
Qed.

(** X14.  A constructor call that is refused at the console level raises
    after its file handler is on the root logger, and nothing takes the
    handler off.  A constructor call that then succeeds for the same name
    and root adds a second file handler on the same file, so from then on
    a record that reaches both file thresholds is written to the log file
    twice. *)
Theorem X14_retry_after_failure_doubles_file_records
    (a1 a2 : Args) (s0 s1 s2 : Process) (e : Exc) (inst : LoggerLHC) (fd : nat)
    (sev : logging.Severity) (msg : string) (depth : nat) :
  _logger_instance s0 = None ->
  root_handlers s0 = [] ->
  sys_stdout s0 = TextIO fd ->
  arg_app_name a2 = arg_app_name a1 ->
  arg_log_root a2 = arg_log_root a1 ->
  construct a1 s0 = (s1, inl e) ->
  root_handlers s1 <> [] ->
  construct a2 s1 = (s2, inr (Some inst)) ->
  exists (fl1 fl2 cl : Z) (c : list string),
    logging.level_arg (arg_file_level a1) logging.DEBUG = inr fl1 /\
    logging.level_arg (arg_console_level a1) logging.INFO = inl e /\
    logging.level_arg (arg_file_level a2) logging.DEBUG = inr fl2 /\
    root_handlers s2 =
      [FileHandler (os.key (cwd s0) (log_file inst)) fl1;
       FileHandler (os.key (cwd s0) (log_file inst)) fl2;
       StreamHandler (TextIO fd) cl] /\
    fs s2 !! os.key (cwd s0) (log_file inst) = Some (File c) /\
    let line := fmt (asctime s2) (logging.levelname sev) (logger_name (logger inst)) msg
                  +:+ Str.NL in
    fs (fst (method sev depth inst msg s2)) !! os.key (cwd s0) (log_file inst) =
      Some (File (c ++ (if fl1 <=? logging.levelno sev then [line] else []) ++
                       (if fl2 <=? logging.levelno sev then [line] else []))).
Proof.
  intros Hnone Hh Hout Hn Hr Hfail Hleft Hrun.
  destruct (construct_raises_state a1 s0 s1 e Hnone Hfail)
    as [-> | (f1 & Hmk & [-> | (f2 & Hop & [-> | (fl1 & Hfl1 & Hcl1 & Hs1)])])];
    try (exfalso; apply Hleft; exact Hh).
  assert (Hnone1 : _logger_instance s1 = None) by (rewrite Hs1; exact Hnone).
  assert (Hcwd : cwd s1 = cwd s0) by (rewrite Hs1; reflexivity).
  assert (Htoday : today s1 = today s0) by (rewrite Hs1; reflexivity).
  assert (Hout1 : sys_stdout s1 = TextIO fd) by (rewrite Hs1; exact Hout).
  assert (Hh1 : root_handlers s1 =
                [FileHandler (os.key (cwd s0) (log_file (instance_of a1 s0))) fl1])
    by (rewrite Hs1; cbn [root_handlers set_root_handlers]; rewrite Hh; reflexivity).
  destruct (instance_paths_ext a1 a2 s0 s1 Hn Hr Hcwd Htoday) as [Hlf Hlg].
  destruct (init_success a2 s1 s2 _ Hnone1 Hrun)
    as (g1 & g2 & fl2 & cl & _ & Hop2 & Hfl2 & _ & Ho & Hs2).
  injection Ho as Ho. subst inst.
  destruct (open_append_file _ _ _ Hop2) as (c & Hc & _).
  rewrite Hh1, Hout1, Hcwd in Hs2. rewrite Hcwd in Hc.
  exists fl1, fl2, cl, c.
  split; [exact Hfl1|]. split; [exact Hcl1|]. split; [exact Hfl2|].
  rewrite Hlf in *.
  split; [rewrite Hs2; reflexivity|].
  split; [rewrite Hs2; exact Hc|].
  cbv zeta. rewrite method_log. unfold log_lhc.LoggerLHC_log.
  rewrite Hs2. cbn [List.app asctime].
  rewrite log_two_file_handlers. cbv zeta.
  rewrite List.app_assoc. apply emit_fs_lookup. apply emit_fs_lookup. exact Hc.
Qed.

Lemma X14_witness :
  exists (fl1 fl2 cl : Z) (c : list string),
    logging.level_arg (arg_file_level demo_bad_console) logging.DEBUG = inr fl1 /\
    logging.level_arg (arg_console_level demo_bad_console) logging.INFO = inl TypeError /\
    logging.level_arg (arg_file_level demo_args) logging.DEBUG = inr fl2 /\
    root_handlers (fst (construct demo_args (fst (construct demo_bad_console demo)))) =
      [FileHandler (os.key (cwd demo) (log_file (instance_of demo_args demo))) fl1;
       FileHandler (os.key (cwd demo) (log_file (instance_of demo_args demo))) fl2;
       StreamHandler (TextIO 1) cl] /\
    fs (fst (construct demo_args (fst (construct demo_bad_console demo))))
      !! os.key (cwd demo) (log_file (instance_of demo_args demo)) = Some (File c) /\
    let s2 := fst (construct demo_args (fst (construct demo_bad_console demo))) in
    let line := fmt (asctime s2) (logging.levelname logging.SevError)
                  (logger_name (logger (instance_of demo_args demo))) "boom"
                  +:+ Str.NL in
    fs (fst (method logging.SevError 0 (instance_of demo_args demo) "boom" s2))
      !! os.key (cwd demo) (log_file (instance_of demo_args demo)) =
      Some (File (c ++ (if fl1 <=? logging.levelno logging.SevError then [line] else []) ++
                       (if fl2 <=? logging.levelno logging.SevError then [line] else []))).
Proof.
  apply (X14_retry_after_failure_doubles_file_records demo_bad_console demo_args demo
           (fst (construct demo_bad_console demo))
           (fst (construct demo_args (fst (construct demo_bad_console demo))))
           TypeError (instance_of demo_args demo) 1%nat logging.SevError "boom" 0).
  - reflexivity.
  - reflexivity.
  - reflexivity.
  - reflexivity.
  - reflexivity.
  - vm_compute. reflexivity.
  - vm_compute. discriminate.
  - vm_compute. reflexivity.
Defined.

(* ===================================================================== *)
(** ** Further properties: thresholds and errors at the edge *)
(* ===================================================================== *)

Lemma levelno_at_most_error (sev : logging.Severity) :
  logging.levelno sev <= logging.ERROR.
Proof. destruct sev; unfold logging.levelno, logging.ERROR, logging.DEBUG,
  logging.INFO, logging.WARNING; lia. Qed.

(** X15.  The instance has no method above [error].  With a file level
    above ERROR (the strings [critical] and [fatal]) nothing the module
    emits reaches the log file: after any record through the instance and
    after any write to the intercepted [sys.stdout], the file holds what it
    held when it was opened. *)
Theorem X15_file_level_above_error_silences_the_file
    (a : Args) (s0 s1 : Process) (inst : LoggerLHC) (fd : nat) (fl : Z) :
  _logger_instance s0 = None ->
  root_handlers s0 = [] ->
  sys_stdout s0 = TextIO fd ->
  construct a s0 = (s1, inr (Some inst)) ->
  logging.level_arg (arg_file_level a) logging.DEBUG = inr fl ->
  logging.ERROR < fl ->
  exists c : list string,
    fs s1 !! os.key (cwd s0) (log_file inst) = Some (File c) /\
    (forall sev msg depth,
       fs (fst (method sev depth inst msg s1)) !! os.key (cwd s0) (log_file inst) =
         Some (File c)) /\
    (forall text d,
       fs (fst (Stream_write (S d) (sys_stdout s1) text s1))
         !! os.key (cwd s0) (log_file inst) = Some (File c)).
Proof.
  intros Hnone Hh Hout Hrun Hfl Hhigh.
  destruct (init_fresh a s0 s1 _ Hnone Hh Hrun)
    as (f1 & f2 & fl' & cl & _ & Hop & Hfl' & _ & Ho & Hs1).
  injection Ho as Ho. subst inst.
  rewrite Hfl in Hfl'. injection Hfl' as <-.
  destruct (open_append_file _ _ _ Hop) as (c & Hc & _).
  rewrite Hout in Hs1. subst s1.
  exists c. split; [exact Hc|]. split.
  - intros sev msg depth. rewrite method_log. unfold log_lhc.LoggerLHC_log.
    rewrite log_active. cbn [fst]. unfold active. cbn [fs].
    assert (E : (fl <=? logging.levelno sev) = false).
    { apply Z.leb_gt. pose proof (levelno_at_most_error sev). lia. }
    rewrite E. exact Hc.
  - intros text d. unfold active at 1. cbn [sys_stdout].
    destruct (Str.rstrip text) as [|ch m] eqn:E.
    + unfold sys___stdout__. cbn [Stream_write]. rewrite E. exact Hc.
    + assert (Hne : Str.rstrip text <> EmptyString) by (rewrite E; discriminate).
      rewrite (shim_write_active d text _ _ _ _ _ _ _ _ _ _ Hne).
      cbn [fst]. unfold active. cbn [fs].
      assert (E' : (fl <=? logging.INFO) = false).
      { apply Z.leb_gt. unfold logging.INFO, logging.ERROR in *. lia. }
      rewrite E'. exact Hc.
Qed.

Lemma X15_witness :
  exists c : list string,
    fs (fst (construct (mkArgs "svc" None "Critical" "info") demo))
      !! os.key (cwd demo)
           (log_file (instance_of (mkArgs "svc" None "Critical" "info") demo)) =
      Some (File c) /\
    (forall sev msg depth,
       fs (fst (method sev depth (instance_of (mkArgs "svc" None "Critical" "info") demo)
                  msg (fst (construct (mkArgs "svc" None "Critical" "info") demo))))
         !! os.key (cwd demo)
              (log_file (instance_of (mkArgs "svc" None "Critical" "info") demo)) =
         Some (File c)) /\
    (forall text d,
       fs (fst (Stream_write (S d)
                  (sys_stdout (fst (construct (mkArgs "svc" None "Critical" "info") demo)))
                  text (fst (construct (mkArgs "svc" None "Critical" "info") demo))))
         !! os.key (cwd demo)
              (log_file (instance_of (mkArgs "svc" None "Critical" "info") demo)) =
         Some (File c)).
Proof.
  apply (X15_file_level_above_error_silences_the_file
           (mkArgs "svc" None "Critical" "info") demo
           (fst (construct (mkArgs "svc" None "Critical" "info") demo))
           (instance_of (mkArgs "svc" None "Critical" "info") demo) 1%nat 50).
  - reflexivity.
  - reflexivity.
  - reflexivity.
  - vm_compute. reflexivity.
  - reflexivity.
  - reflexivity.
Defined.

Lemma mkdir_chain_blocked (c : list Path) (f : gmap string Node) (p : Path)
    (chunks : list string) :
  In p c -> f !! pathlib.to_str p = Some (File chunks) ->
  os.mkdir_chain c f = inl FileExistsError \/
  os.mkdir_chain c f = inl NotADirectoryError.
Proof.
  revert f. induction c as [|q rest IH]; intros f Hin Hp; [destruct Hin|].
  cbn [os.mkdir_chain].
  destruct (f !! pathlib.to_str q) as [[|chunks']|] eqn:E.
  - destruct Hin as [->|Hin]; [congruence|]. apply IH; assumption.
  - destruct rest; [left|right]; reflexivity.
  - destruct Hin as [->|Hin]; [congruence|]. apply IH; [exact Hin|].
    rewrite lookup_insert_ne; [exact Hp|]. intros Heq. rewrite Heq in E. congruence.
Qed.

(** X16.  When a regular file sits where the date folder or one of its
    parent folders has to be, the constructor raises [FileExistsError] or
    [NotADirectoryError] from [mkdir], before it has touched anything: the
    process is exactly as it was. *)
Theorem X16_file_in_the_way_of_the_date_folder
    (a : Args) (s : Process) (p : Path) (chunks : list string) :
  _logger_instance s = None ->
  In p (pathlib.chain (os.resolve (cwd s) (date_folder (instance_of a s)))) ->
  fs s !! pathlib.to_str p = Some (File chunks) ->
  construct a s = (s, inl FileExistsError) \/
  construct a s = (s, inl NotADirectoryError).
Proof.
  intros Hnone Hin Hp.
  assert (Hstep : forall e,
    os.mkdir_chain (pathlib.chain (os.resolve (cwd s) (date_folder (instance_of a s))))
      (fs s) = inl e ->
    construct a s = (s, inl e)).
  { intros e Hmk. unfold construct, log_lhc.LoggerLHC__init__.
    rewrite (bind_run _ _ s s s eq_refl). rewrite Hnone.
    unfold bind at 1.
    fold (date_folder (instance_of a s)).
    assert (Hmkdir : os.mkdir (date_folder (instance_of a s)) s = (s, inl e)).
    { unfold os.mkdir. rewrite (bind_run _ _ s s s eq_refl).
      unfold bind, lift, raise. rewrite Hmk. reflexivity. }
    unfold instance_of in Hmkdir. cbn [date_folder] in Hmkdir.
    rewrite Hmkdir. reflexivity. }
  destruct (mkdir_chain_blocked _ _ p chunks Hin Hp) as [H|H]; [left|right];
    apply Hstep; exact H.
Qed.

Lemma X16_witness :
  construct demo_args demo_blocked = (demo_blocked, inl FileExistsError) \/
  construct demo_args demo_blocked = (demo_blocked, inl NotADirectoryError).
Proof.
  apply (X16_file_in_the_way_of_the_date_folder demo_args demo_blocked
           (mkPath Abs ["tmp"; "x"; "logs"]) ["not a folder"]).
  - reflexivity.
  - vm_compute. right. right. left. reflexivity.
  - vm_compute. reflexivity.
Defined.
